(** * ISS-Tracker: a shallow embedding of [iss_tracker.py]

    The development follows the layout of the program: the Python
    run-time notions the program leans on (exceptions, 64-bit floats,
    subscripting, iteration, slicing), the Kinematics function
    [calculate_speed], the Ephemeris Parser [parse_xml_data] on top of
    the document structure built by [xmltodict], the Nearest-Epoch
    Selector [get_current_info], the Geolocation Resolver
    [calculate_location] and the route handlers. *)

From Stdlib Require Import ZArith List String Ascii Bool Lia Floats.
Import ListNotations.

Set Warnings "-inexact-float,-register-all".

Local Open Scope string_scope.
Local Open Scope list_scope.
Local Open Scope Z_scope.

(** ** Exceptions and results *)

(** The exceptions the program can raise. *)
Inductive exn : Type :=
| KeyError
| TypeError
| ValueError
| OverflowError.

(** A computation either returns a value or raises. *)
Inductive result (A : Type) : Type :=
| Ok (a : A)
| Raise (e : exn).

Arguments Ok {A} a.
Arguments Raise {A} e.

Definition bind {A B : Type} (r : result A) (k : A -> result B) : result B :=
  match r with
  | Ok a => k a
  | Raise e => Raise e
  end.

Notation "x <- r ;; k" := (bind r (fun x => k))
  (at level 61, r at next level, right associativity).
Notation "' p <- r ;; k" := (bind r (fun p => k))
  (at level 61, p pattern, r at next level, right associativity).

Definition and_then {A B : Type} (o : option A) (k : A -> option B) : option B :=
  match o with
  | Some a => k a
  | None => None
  end.

Definition is_ok {A : Type} (r : result A) : bool :=
  match r with
  | Ok _ => true
  | Raise _ => false
  end.

(** [for x in l: out.append(f x)]: the first exception aborts the loop
    and nothing collected so far is returned. *)
Fixpoint for_each {A B : Type} (f : A -> result B) (l : list A) : result (list B) :=
  match l with
  | [] => Ok []
  | x :: l' =>
      y <- f x ;;
      ys <- for_each f l' ;;
      Ok (y :: ys)
  end.

(** ** 64-bit floats *)

Module PyFloat.

(** [x ** 2] on a float, with the C library's [pow] taken at its
    ideal: the correctly rounded square.  CPython's [float_pow] answers
    the special cases itself (a NaN base is returned as it is, an
    infinite base with a positive even exponent gives [+inf]) and
    otherwise calls the C library's [pow (fabs x) 2.0]; a finite base
    whose square leaves the double range makes it raise [OverflowError],
    while an underflow to zero is returned as [0.0].  A C library may
    answer one unit in the last place away from the rounded square, so
    this definition fixes the sign, the zeros, the NaNs, the infinities
    and the overflows of [x ** 2], not its last digit; [Libm.float_pow2]
    below leaves the library's answer open. *)
Definition pow2 (x : float) : result float :=
  if is_nan x then Ok x
  else if is_infinity x then Ok infinity
  else
    let r := (x * x)%float in
    if is_infinity r then Raise OverflowError else Ok r.

(** [math.sqrt x]: a domain error ([ValueError]) when the C [sqrt]
    answers NaN for an argument that is not NaN. *)
Definition math_sqrt (x : float) : result float :=
  let r := sqrt x in
  if is_nan r && negb (is_nan x) then Raise ValueError else Ok r.

(** [x == y] on floats (IEEE equality: [0.0 == -0.0], NaN differs from
    itself). *)
Definition eq (x y : float) : bool := (x =? y)%float.

End PyFloat.

(** ** Text read as numbers: the built-ins [int] and [float] on a [str] *)

Module PyText.

Definition is_space (c : ascii) : bool :=
  let n := nat_of_ascii c in
  ((9 <=? n) && (n <=? 13) || (n =? 32))%nat.

Definition is_digit (c : ascii) : bool :=
  let n := nat_of_ascii c in
  ((48 <=? n) && (n <=? 57))%nat.

Definition digit_val (c : ascii) : Z := Z.of_nat (nat_of_ascii c) - 48.

Definition lower (c : ascii) : ascii :=
  let n := nat_of_ascii c in
  if ((65 <=? n) && (n <=? 90))%nat then ascii_of_nat (n + 32) else c.

Fixpoint lstrip (s : string) : string :=
  match s with
  | String c s' => if is_space c then lstrip s' else s
  | EmptyString => s
  end.

Fixpoint rstrip (s : string) : string :=
  match s with
  | String c s' =>
      match rstrip s' with
      | EmptyString => if is_space c then EmptyString else String c EmptyString
      | r => String c r
      end
  | EmptyString => s
  end.

(** [s.strip()] on white space *)
Definition strip (s : string) : string := rstrip (lstrip s).

Fixpoint map_string (f : ascii -> ascii) (s : string) : string :=
  match s with
  | String c s' => String (f c) (map_string f s')
  | EmptyString => EmptyString
  end.

(** The digits that continue a digit part, single underscores between
    digits allowed, and the text after them. *)
Fixpoint more_digits (s : string) : list Z * string :=
  match s with
  | String c s' =>
      if is_digit c then
        let (ds, r) := more_digits s' in (digit_val c :: ds, r)
      else if Ascii.eqb c "_" then
        match s' with
        | String d s'' =>
            if is_digit d then
              let (ds, r) := more_digits s'' in (digit_val d :: ds, r)
            else ([], s)
        | EmptyString => ([], s)
        end
      else ([], s)
  | EmptyString => ([], s)
  end.

(** A digit part: at least one digit; the empty list when there is none. *)
Definition digit_part (s : string) : list Z * string :=
  match s with
  | String c s' =>
      if is_digit c then
        let (ds, r) := more_digits s' in (digit_val c :: ds, r)
      else ([], s)
  | EmptyString => ([], s)
  end.

Definition number_of (ds : list Z) : Z :=
  fold_left (fun acc d => 10 * acc + d) ds 0.

(** An optional sign: [true] for [-]. *)
Definition sign_part (s : string) : bool * string :=
  match s with
  | String c s' =>
      if Ascii.eqb c "-" then (true, s')
      else if Ascii.eqb c "+" then (false, s')
      else (false, s)
  | EmptyString => (false, s)
  end.

(** [int(s)] in base ten; [None] is [ValueError]. *)
Definition int_of_str (s : string) : option Z :=
  let (neg, s1) := sign_part (strip s) in
  match digit_part s1 with
  | ((_ :: _) as ds, EmptyString) =>
      Some (if neg then - number_of ds else number_of ds)
  | _ => None
  end.

(** The binary64 value nearest to [m * 10 ^ e], with the sign [neg], for
    [m > 0]: ties go to even and an overflow gives an infinity. *)
Definition decimal_to_float (neg : bool) (m : positive) (e : Z) : float :=
  SF2Prim
    match e with
    | Zneg k =>
        SFdiv prec emax (S754_finite neg m 0)
              (S754_finite false (Pos.pow 10 k) 0)
    | _ =>
        binary_normalize prec emax
          ((if neg then Z.neg m else Z.pos m) * 10 ^ e) 0 false
    end.

(** The exponent part [e[+-]digits] of a decimal literal, when there is
    one. *)
Definition exponent_part (s : string) : option (Z * string) :=
  match s with
  | String c s' =>
      if Ascii.eqb (lower c) "e" then
        let (neg, s1) := sign_part s' in
        match digit_part s1 with
        | ((_ :: _) as ds, r) =>
            Some (if neg then - number_of ds else number_of ds, r)
        | _ => None
        end
      else Some (0, s)
  | EmptyString => Some (0, s)
  end.

(** [float(s)]: [inf], [infinity] and [nan] in any case, or a decimal
    literal, with an optional sign and surrounding white space; [None] is
    [ValueError]. *)
Definition float_of_str (s : string) : option float :=
  let (neg, s1) := sign_part (strip s) in
  let word := map_string lower s1 in
  if String.eqb word "inf" || String.eqb word "infinity" then
    Some (if neg then neg_infinity else infinity)
  else if String.eqb word "nan" then Some nan
  else
    let (ip, s2) := digit_part s1 in
    let (fp, s3) :=
      match s2 with
      | String c s2' => if Ascii.eqb c "." then digit_part s2' else ([], s2)
      | EmptyString => ([], s2)
      end in
    match ip ++ fp with
    | [] => None
    | ds =>
        match exponent_part s3 with
        | Some (ex, EmptyString) =>
            Some match number_of ds with
                 | Z.pos m =>
                     decimal_to_float neg m (ex - Z.of_nat (List.length fp))
                 | _ => if neg then neg_zero else zero
                 end
        | _ => None
        end
    end.

End PyText.

(** ** Kinematics *)

(** [math.sqrt(x_dot**2 + y_dot**2 + z_dot**2)] *)
Definition calculate_speed (x_dot y_dot z_dot : float) : result float :=
  a <- PyFloat.pow2 x_dot ;;
  b <- PyFloat.pow2 y_dot ;;
  c <- PyFloat.pow2 z_dot ;;
  PyFloat.math_sqrt (a + b + c)%float.

(** The same function with the C library left open.  [pow2 x] stands for
    the library's [pow (x, 2.0)], which [float_pow] calls on the absolute
    value of a finite base other than [0.0] and [1.0]; every other base
    is answered by [float_pow] itself.  The library is taken to report an
    error only with a result that is infinite (which [float_pow] turns
    into [OverflowError]) or zero (which it returns). *)
Module Libm.

Section Pow.

Variable pow2 : float -> float.

(** [x ** 2.0], after [float_pow] of CPython *)
Definition float_pow2 (x : float) : result float :=
  if is_nan x then Ok x
  else if is_infinity x then Ok infinity
  else if (x =? 0)%float then Ok 0%float
  else
    let iv := abs x in
    if (iv =? 1)%float then Ok 1%float
    else
      let ix := pow2 iv in
      if is_infinity ix then Raise OverflowError else Ok ix.

(** [math.sqrt(x_dot**2 + y_dot**2 + z_dot**2)] *)
Definition calculate_speed (x_dot y_dot z_dot : float) : result float :=
  a <- float_pow2 x_dot ;;
  b <- float_pow2 y_dot ;;
  c <- float_pow2 z_dot ;;
  PyFloat.math_sqrt (a + b + c)%float.

(** The bases that reach the library and come back infinite, and the
    value of [x ** 2.0] for the others. *)
Definition overflows (x : float) : bool :=
  is_finite x && negb (x =? 0)%float && negb (abs x =? 1)%float
  && is_infinity (pow2 (abs x)).

Definition square (x : float) : float :=
  if is_nan x then x
  else if is_infinity x then infinity
  else if (x =? 0)%float then 0%float
  else if (abs x =? 1)%float then 1%float
  else pow2 (abs x).

End Pow.

(** What the statements ask of the library: on a finite argument above
    zero, [pow (x, 2.0)] is not a NaN and not below zero. *)
Definition not_negative (pow2 : float -> float) : Prop :=
  forall x, is_finite x = true -> (0 <? x)%float = true ->
            (0 <=? pow2 x)%float = true.

(** The correctly rounded square, the library at its ideal. *)
Definition rounded_square (x : float) : float := (x * x)%float.

End Libm.

(** ** Documents

    What the program handles as a Python object after [xmltodict.parse]:
    [None], a [str], a [dict] with [str] keys in insertion order, or a
    [list]. *)

Inductive value : Type :=
| VNone
| VStr (s : string)
| VDict (items : list (string * value))
| VList (elems : list value).

Definition dict : Type := list (string * value).

Fixpoint dict_get (k : string) (d : dict) : option value :=
  match d with
  | [] => None
  | (k', v) :: d' => if String.eqb k k' then Some v else dict_get k d'
  end.

(** [d[k] = v]: an existing key keeps its place, a new one goes last. *)
Fixpoint dict_set (k : string) (v : value) (d : dict) : dict :=
  match d with
  | [] => [(k, v)]
  | (k', v') :: d' =>
      if String.eqb k k' then (k, v) :: d' else (k', v') :: dict_set k v d'
  end.

(** [v[key]] for a [str] key: only a [dict] can be subscripted by a
    [str]; a [str], a [list] and [None] raise [TypeError]. *)
Definition getitem (v : value) (key : string) : result value :=
  match v with
  | VDict d =>
      match dict_get key d with
      | Some x => Ok x
      | None => Raise KeyError
      end
  | _ => Raise TypeError
  end.

Fixpoint chars (s : string) : list value :=
  match s with
  | String c s' => VStr (String c EmptyString) :: chars s'
  | EmptyString => []
  end.

(** [for t in v]: the elements of a [list], the keys of a [dict], the
    characters of a [str]; [None] is not iterable. *)
Definition iter (v : value) : result (list value) :=
  match v with
  | VList l => Ok l
  | VDict d => Ok (map (fun kv => VStr (fst kv)) d)
  | VStr s => Ok (chars s)
  | VNone => Raise TypeError
  end.

(** [float(v)] *)
Definition float_of (v : value) : result float :=
  match v with
  | VStr s =>
      match PyText.float_of_str s with
      | Some f => Ok f
      | None => Raise ValueError
      end
  | _ => Raise TypeError
  end.

(** An XML element as the reader hands it to [xmltodict]: its tag, its
    attributes, its own character data (joined and stripped of surrounding
    white space, empty when there is none) and its child elements in
    document order. *)
Inductive element : Type :=
| Element (tag : string) (attrs : list (string * string)) (text : string)
          (children : list element).

Definition tag (e : element) : string :=
  match e with Element t _ _ _ => t end.
Definition attrs (e : element) : list (string * string) :=
  match e with Element _ a _ _ => a end.
Definition text (e : element) : string :=
  match e with Element _ _ x _ => x end.
Definition children (e : element) : list element :=
  match e with Element _ _ _ c => c end.

Module Xmltodict.

(** [push_data]: the first value under a key is stored as it is, the
    second turns the entry into a two-element list, later ones are
    appended to that list. *)
Definition push_data (item : option dict) (key : string) (data : value) : dict :=
  let d := match item with Some d => d | None => [] end in
  match dict_get key d with
  | Some (VList l) => dict_set key (VList (l ++ [data])) d
  | Some v => dict_set key (VList [v; data]) d
  | None => dict_set key data d
  end.

Definition push_all (item : option dict) (kvs : list (string * value)) : option dict :=
  fold_left (fun it kv => Some (push_data it (fst kv) (snd kv))) kvs item.

Definition attr_items (a : list (string * string)) : option dict :=
  match a with
  | [] => None
  | _ => Some (map (fun kv => (("@" ++ fst kv)%string, VStr (snd kv))) a)
  end.

(** The object an element becomes: [None] when it is empty, its text
    when it has only text, otherwise a dict of its attributes (keys
    prefixed by [@]), its children by tag, and its text under [#text]. *)
Fixpoint convert (e : element) : value :=
  match e with
  | Element _ a x cs =>
      let item := push_all (attr_items a) (map (fun c => (tag c, convert c)) cs) in
      match item, x with
      | Some d, EmptyString => VDict d
      | Some d, _ => VDict (push_data (Some d) "#text" (VStr x))
      | None, EmptyString => VNone
      | None, _ => VStr x
      end
  end.

(** [xmltodict.parse]: a dict with the root's tag as its only key. *)
Definition parse (root : element) : value :=
  VDict [(tag root, convert root)].

End Xmltodict.

(** ** Ephemeris Parser *)

(** A parsed record, the dict [{"EPOCH": .., "X": .., ..}].  [EPOCH] is
    stored as the document gives it; the other fields are floats. *)
Module StateVector.
Record t : Type := {
  EPOCH : value;
  X : float;
  Y : float;
  Z : float;
  X_DOT : float;
  Y_DOT : float;
  Z_DOT : float
}.
End StateVector.

Definition state_vector : Type := StateVector.t.

(** [float(t[name]["#text"])] *)
Definition numeric_field (t : value) (name : string) : result float :=
  f <- getitem t name ;;
  x <- getitem f "#text" ;;
  float_of x.

(** The body of the loop of [parse_xml_data]. *)
Definition t_data (t : value) : result state_vector :=
  epoch <- getitem t "EPOCH" ;;
  x <- numeric_field t "X" ;;
  y <- numeric_field t "Y" ;;
  z <- numeric_field t "Z" ;;
  x_dot <- numeric_field t "X_DOT" ;;
  y_dot <- numeric_field t "Y_DOT" ;;
  z_dot <- numeric_field t "Z_DOT" ;;
  Ok {| StateVector.EPOCH := epoch;
        StateVector.X := x; StateVector.Y := y; StateVector.Z := z;
        StateVector.X_DOT := x_dot; StateVector.Y_DOT := y_dot;
        StateVector.Z_DOT := z_dot |}.

(** [xml_dict["ndm"]["oem"]["body"]["segment"]["data"][last]] *)
Definition data_entry (xml_dict : value) (last : string) : result value :=
  ndm <- getitem xml_dict "ndm" ;;
  oem <- getitem ndm "oem" ;;
  body <- getitem oem "body" ;;
  segment <- getitem body "segment" ;;
  data <- getitem segment "data" ;;
  getitem data last.

(** The downloaded document stands for the bytes the reader accepts;
    ill-formed markup is outside the model. *)
Definition parse_xml_data (xml_data : element) : result (list state_vector) :=
  let xml_dict := Xmltodict.parse xml_data in
  epochs <- data_entry xml_dict "stateVector" ;;
  ts <- iter epochs ;;
  for_each t_data ts.

(** The sample document of the test-suite. *)
Definition numeric (name units payload : string) : element :=
  Element name [("units", units)] payload [].

Definition sample_state_vector (epoch x y z x_dot y_dot z_dot : string) : element :=
  Element "stateVector" [] ""
    [ Element "EPOCH" [] epoch [];
      numeric "X" "km" x; numeric "Y" "km" y; numeric "Z" "km" z;
      numeric "X_DOT" "km/s" x_dot; numeric "Y_DOT" "km/s" y_dot;
      numeric "Z_DOT" "km/s" z_dot ].

Definition oem_document (data_children : list element) : element :=
  Element "ndm" [] ""
    [ Element "oem" [("id", "CCSDS_OEM_VERS"); ("version", "2.0")] ""
        [ Element "body" [] ""
            [ Element "segment" [] ""
                [ Element "data" [] "" data_children ] ] ] ].

Definition sample_xml_data : element :=
  oem_document
    [ sample_state_vector "2024-045T12:04:00.000Z"
        "100.0" "200.0" "300.0" "1.0" "2.0" "3.0";
      sample_state_vector "2024-045T12:05:00.000Z"
        "150.0" "250.0" "350.0" "1.5" "2.5" "3.5" ].

(** ** Reading the document by its elements *)

Definition children_named (e : element) (k : string) : list element :=
  filter (fun c => String.eqb (tag c) k) (children e).

Definition only_child (e : element) (k : string) : option element :=
  match children_named e k with
  | [c] => Some c
  | _ => None
  end.

(** The [data] element of an orbit ephemeris message: the root is [ndm],
    and [oem], [body], [segment] and [data] each occur once on the way
    down. *)
Definition data_element (root : element) : option element :=
  if String.eqb (tag root) "ndm" then
    match only_child root "oem" with
    | Some oem =>
        match only_child oem "body" with
        | Some body =>
            match only_child body "segment" with
            | Some segment => only_child segment "data"
            | None => None
            end
        | None => None
        end
    | None => None
    end
  else None.

(** A key that is the tag of a child element: it is not an attribute key
    and not the text key. *)
Definition tag_key (k : string) : bool :=
  negb (String.eqb k "#text")
  && match k with
     | String c _ => negb (Ascii.eqb c "@")
     | EmptyString => true
     end.

(** What [xmltodict] stores for the values pushed under one key. *)
Definition grouped (vs : list value) : option value :=
  match vs with
  | [] => None
  | [v] => Some v
  | _ => Some (VList vs)
  end.

Definition get_opt (k : string) (item : option dict) : option value :=
  match item with
  | Some d => dict_get k d
  | None => None
  end.

Definition is_list (v : value) : bool :=
  match v with
  | VList _ => true
  | _ => false
  end.

(** ** Time stamps

    A [datetime] is counted in microseconds from 0001-01-01T00:00:00, a
    [timedelta] in microseconds; both are exact integers in Python. *)

Module PyTime.

(** Years 1 to 9999. *)
Definition datetime_end : Z := 3652059 * 86400 * 1000000.

Definition is_datetime (t : Z) : bool := (0 <=? t) && (t <? datetime_end).

(** [timedelta.max], 999999999 days, 23:59:59.999999 *)
Definition timedelta_max : Z := (999999999 * 86400 + 86399) * 1000000 + 999999.

(** [timedelta(minutes=4, milliseconds=1)] *)
Definition tolerance : Z := 4 * 60 * 1000000 + 1000.

Definition is_leap (y : Z) : bool :=
  (y mod 4 =? 0) && (negb (y mod 100 =? 0) || (y mod 400 =? 0)).

Definition days_before_year (y : Z) : Z :=
  let p := y - 1 in p * 365 + p / 4 - p / 100 + p / 400.

(** A maximal run of digits and the text after it. *)
Fixpoint digits_run (s : string) : list Z * string :=
  match s with
  | String c s' =>
      if PyText.is_digit c then
        let (ds, r) := digits_run s' in (PyText.digit_val c :: ds, r)
      else ([], s)
  | EmptyString => ([], s)
  end.

(** A numeric directive: between [lo_len] and [hi_len] digits with a
    value from [lo] to [hi]. *)
Definition directive (lo_len hi_len : nat) (lo hi : Z) (s : string)
  : option (Z * string) :=
  let (ds, r) := digits_run s in
  let n := PyText.number_of ds in
  if ((lo_len <=? List.length ds) && (List.length ds <=? hi_len))%nat
     && (lo <=? n) && (n <=? hi)
  then Some (n, r) else None.

(** A literal character of the format, compared without case. *)
Definition literal (c : ascii) (s : string) : option string :=
  match s with
  | String c' s' =>
      if Ascii.eqb (PyText.lower c') (PyText.lower c) then Some s' else None
  | EmptyString => None
  end.

(** The fraction directive [%f]: one to six digits, padded with zeros on
    the right. *)
Definition fraction (s : string) : option (Z * string) :=
  let (ds, r) := digits_run s in
  let n := List.length ds in
  if ((1 <=? n) && (n <=? 6))%nat
  then Some (PyText.number_of ds * 10 ^ Z.of_nat (6 - n), r)
  else None.

(** [datetime.strptime(s, "%Y-%jT%H:%M:%S.%fZ")] on a [str]; [None] is
    [ValueError].  Day 366 of a common year runs into the next year, and
    the seconds 60 and 61, which the format matches, are refused when the
    [datetime] is built. *)
Definition strptime_str (s : string) : option Z :=
  and_then (directive 4 4 1 9999 s) (fun '(year, s) =>
  and_then (literal "-" s) (fun s =>
  and_then (directive 1 3 1 366 s) (fun '(julian, s) =>
  and_then (literal "T" s) (fun s =>
  and_then (directive 1 2 0 23 s) (fun '(hour, s) =>
  and_then (literal ":" s) (fun s =>
  and_then (directive 1 2 0 59 s) (fun '(minute, s) =>
  and_then (literal ":" s) (fun s =>
  and_then (directive 1 2 0 59 s) (fun '(second, s) =>
  and_then (literal "." s) (fun s =>
  and_then (fraction s) (fun '(micro, s) =>
  and_then (literal "Z" s) (fun s =>
  match s with
  | EmptyString =>
      let day := days_before_year year + julian - 1 in
      let t := ((day * 24 + hour) * 60 + minute) * 60 * 1000000
               + second * 1000000 + micro in
      if is_datetime t then Some t else None
  | _ => None
  end)))))))))))).

End PyTime.

(** [datetime.strptime(v, "%Y-%jT%H:%M:%S.%fZ")]: the first argument must
    be a [str]. *)
Definition strptime (v : value) : result Z :=
  match v with
  | VStr s =>
      match PyTime.strptime_str s with
      | Some t => Ok t
      | None => Raise ValueError
      end
  | _ => Raise TypeError
  end.

(** ** Nearest-Epoch Selector *)

(** The loop of [get_current_info], with its two variables [closest] and
    [min_diff]; [break] returns the state reached. *)
Fixpoint closest_scan (current_time : Z) (data : list state_vector)
         (closest : option state_vector) (min_diff : Z)
  : result (option state_vector) :=
  match data with
  | [] => Ok closest
  | t :: rest =>
      epoch_t <- strptime (StateVector.EPOCH t) ;;
      let diff := current_time - epoch_t in
      if diff <? - PyTime.tolerance then Ok closest
      else if Z.abs diff <? min_diff then closest_scan current_time rest (Some t) diff
      else closest_scan current_time rest closest min_diff
  end.

(** [current_time] is the reading of [datetime.utcnow()].  Subscripting
    [closest] while it is still [None] raises [TypeError]. *)
Definition get_current_info (current_time : Z) (data : list state_vector)
  : result (state_vector * float) :=
  closest <- closest_scan current_time data None PyTime.timedelta_max ;;
  match closest with
  | None => Raise TypeError
  | Some c =>
      speed <- calculate_speed (StateVector.X_DOT c) (StateVector.Y_DOT c)
                               (StateVector.Z_DOT c) ;;
      Ok (c, speed)
  end.

(** The full scan the specification allows instead: every record is
    visited and the first one with the least [|now - epoch|] is kept. *)
Fixpoint full_scan_from (now : Z) (best : state_vector) (least : Z)
         (data : list state_vector) : result state_vector :=
  match data with
  | [] => Ok best
  | t :: rest =>
      epoch_t <- strptime (StateVector.EPOCH t) ;;
      let d := Z.abs (now - epoch_t) in
      if d <? least then full_scan_from now t d rest
      else full_scan_from now best least rest
  end.

Definition full_scan (now : Z) (data : list state_vector) : result (option state_vector) :=
  match data with
  | [] => Ok None
  | t :: rest =>
      epoch_t <- strptime (StateVector.EPOCH t) ;;
      r <- full_scan_from now t (Z.abs (now - epoch_t)) rest ;;
      Ok (Some r)
  end.

(** Records in ascending chronological order, none before [lo]: every
    [EPOCH] reads as a time stamp and the time stamps do not decrease. *)
Fixpoint ascending_from (lo : Z) (data : list state_vector) : bool :=
  match data with
  | [] => true
  | t :: rest =>
      match strptime (StateVector.EPOCH t) with
      | Ok epoch_t => (lo <=? epoch_t) && ascending_from epoch_t rest
      | Raise _ => false
      end
  end.

Definition chronological (data : list state_vector) : bool := ascending_from 0 data.

(** ** Geolocation Resolver *)

(** What the geocoder found: [location.address] is its text. *)
Record Location : Type := { address : string }.

Section Geolocation.

(** The frame transform of [astropy]: from the instant and the GCRS
    position in kilometres to latitude, longitude and height. *)
Variable to_geodetic : Z -> float -> float -> float -> float * float * float.

(** [Nominatim.reverse((lat, lon), language='en')]: a location, [None]
    when nothing matches, or an exception of the service. *)
Variable reverse : float -> float -> result (option Location).

Definition calculate_location (data : state_vector)
  : result (float * float * float * string) :=
  epoch <- strptime (StateVector.EPOCH data) ;;
  let '(lat, lon, alt) :=
    to_geodetic epoch (StateVector.X data) (StateVector.Y data) (StateVector.Z data) in
  location <- reverse lat lon ;;
  Ok (lat, lon, alt,
      match location with
      | Some l => address l
      | None => "Address not found"
      end).

End Geolocation.

(** ** Route handlers *)

(** [l[start:stop]] with Python's reading of negative and oversized
    indices. *)
Definition slice {A : Type} (l : list A) (start stop : Z) : list A :=
  let n := Z.of_nat (List.length l) in
  let clamp i := if i <? 0 then Z.max (i + n) 0 else Z.min i n in
  let a := clamp start in
  let b := clamp stop in
  firstn (Z.to_nat (b - a)) (skipn (Z.to_nat a) l).

(** What [json.dumps] is applied to. *)
Inductive json : Type :=
| Records (l : list state_vector)
| OneRecord (r : state_vector)
| Speed (speed : float)
| Comments (l : list value)
| Object (v : value)
| Geodetic (latitude longitude altitude : float) (geoposition : string)
| Nearest (closest_epoch : value) (latitude longitude altitude : float)
          (geoposition : string) (speed : float).

(** The body of a response: a plain message, or a serialised object
    followed by [trailer]. *)
Inductive body : Type :=
| Plain (msg : string)
| Dumps (j : json) (trailer : string).

Definition response : Type := (body * Z)%type.

Definition status (r : response) : Z := snd r.

(** The answer of every handler when [download_iss_data] returned [None];
    [iss_data] below is what it returned, the document when the request
    went through. *)
Definition download_failed : response := (Plain "Failed to download ISS data.", 500).

(** [int(request.args.get(name, default))]: a parameter that is absent
    takes the default; [None] is the [ValueError] of [int]. *)
Definition query_int (arg : option string) (default : Z) : option Z :=
  match arg with
  | Some s => PyText.int_of_str s
  | None => Some default
  end.

(** Truth value of an object in a condition. *)
Definition truthy (v : value) : bool :=
  match v with
  | VNone | VStr EmptyString | VDict [] | VList [] => false
  | _ => true
  end.

(** What Flask makes of an object a view returns bare: a [dict] or a
    [list] is serialised, with a line feed after it, and served with 200;
    a [str] is the body as it is; [None] is refused with a [TypeError]. *)
Definition jsonify (j : json) : response := (Dumps j (String "010" EmptyString), 200).

Definition make_response (rv : value) : result response :=
  match rv with
  | VNone => Raise TypeError
  | VStr s => Ok (Plain s, 200)
  | _ => Ok (jsonify (Object rv))
  end.

(** [/comment] *)
Definition get_comments (iss_data : option element) : result response :=
  match iss_data with
  | Some xml =>
      data <- data_entry (Xmltodict.parse xml) "COMMENT" ;;
      Ok (jsonify (Comments match data with
                            | VList l => filter truthy l
                            | _ => [data]
                            end))
  | None => Ok download_failed
  end.

(** [/epochs?limit=..&offset=..] *)
Definition get_epochs (iss_data : option element) (limit offset : option string)
  : result response :=
  match iss_data with
  | Some xml =>
      parsed_data <- parse_xml_data xml ;;
      let len := Z.of_nat (List.length parsed_data) in
      match query_int limit len, query_int offset 0 with
      | Some limit, Some offset =>
          if (limit =? len) && (offset =? 0) then
            Ok (Dumps (Records parsed_data) "", 200)
          else
            Ok (Dumps (Records (slice parsed_data offset (offset + limit)))
                      (String "010" EmptyString), 200)
      | _, _ =>
          Ok (Plain "Invalid paramters; limit and offset must be integers.", 500)
      end
  | None => Ok download_failed
  end.

(** [data["EPOCH"] == epoch] *)
Definition epoch_is (epoch : string) (data : state_vector) : bool :=
  match StateVector.EPOCH data with
  | VStr s => String.eqb s epoch
  | _ => false
  end.

(** [/epochs/<epoch>] *)
Definition get_epoch (iss_data : option element) (epoch : string) : result response :=
  match iss_data with
  | Some xml =>
      parsed_data <- parse_xml_data xml ;;
      match find (epoch_is epoch) parsed_data with
      | Some data => Ok (Dumps (OneRecord data) "", 200)
      | None => Ok (Plain "Epoch not found.", 404)
      end
  | None => Ok download_failed
  end.

(** The speed written out in the handler of [/epochs/<epoch>/speed]:
    [math.sqrt(data["X_DOT"]**2 + data["Y_DOT"]**2 + data["Z_DOT"]**2)] *)
Definition inline_speed (data : state_vector) : result float :=
  a <- PyFloat.pow2 (StateVector.X_DOT data) ;;
  b <- PyFloat.pow2 (StateVector.Y_DOT data) ;;
  c <- PyFloat.pow2 (StateVector.Z_DOT data) ;;
  PyFloat.math_sqrt (a + b + c)%float.

(** [/epochs/<epoch>/speed] *)
Definition get_epoch_speed (iss_data : option element) (epoch : string)
  : result response :=
  match iss_data with
  | Some xml =>
      parsed_data <- parse_xml_data xml ;;
      match find (epoch_is epoch) parsed_data with
      | Some data =>
          speed <- inline_speed data ;;
          Ok (Dumps (Speed speed) "", 200)
      | None => Ok (Plain "Epoch not found.", 404)
      end
  | None => Ok download_failed
  end.

(** [/header] *)
Definition get_header (iss_data : option element) : result response :=
  match iss_data with
  | Some xml =>
      ndm <- getitem (Xmltodict.parse xml) "ndm" ;;
      oem <- getitem ndm "oem" ;;
      header <- getitem oem "header" ;;
      make_response header
  | None => Ok download_failed
  end.

(** [/metadata] *)
Definition get_metadata (iss_data : option element) : result response :=
  match iss_data with
  | Some xml =>
      ndm <- getitem (Xmltodict.parse xml) "ndm" ;;
      oem <- getitem ndm "oem" ;;
      body <- getitem oem "body" ;;
      segment <- getitem body "segment" ;;
      metadata <- getitem segment "metadata" ;;
      make_response metadata
  | None => Ok download_failed
  end.

Section LocationHandlers.

Variable to_geodetic : Z -> float -> float -> float -> float * float * float.
Variable reverse : float -> float -> result (option Location).

(** [/epochs/<epoch>/location] *)
Definition get_epoch_location (iss_data : option element) (epoch : string)
  : result response :=
  match iss_data with
  | Some xml =>
      parsed_data <- parse_xml_data xml ;;
      match find (epoch_is epoch) parsed_data with
      | Some data =>
          '(lat, long, alt, geo) <- calculate_location to_geodetic reverse data ;;
          Ok (Dumps (Geodetic lat long alt geo) "", 200)
      | None => Ok (Plain "Epoch not found.", 404)
      end
  | None => Ok download_failed
  end.

(** [/now], with the reading of the clock *)
Definition get_nearest_epoch (current_time : Z) (iss_data : option element)
  : result response :=
  match iss_data with
  | Some xml =>
      parsed_data <- parse_xml_data xml ;;
      '(closest, speed) <- get_current_info current_time parsed_data ;;
      '(lat, long, alt, geo) <- calculate_location to_geodetic reverse closest ;;
      Ok (Dumps (Nearest (StateVector.EPOCH closest) lat long alt geo speed) "", 200)
  | None => Ok download_failed
  end.

End LocationHandlers.

(** ** Notions the statements use *)

(** The fields of a state vector, and those that hold numbers. *)
Definition numeric_fields : list string :=
  ["X"; "Y"; "Z"; "X_DOT"; "Y_DOT"; "Z_DOT"].

Definition fields : list string := "EPOCH" :: numeric_fields.

(** A text field of a state vector: one child with that tag, holding
    text and nothing else. *)
Definition text_field (sv : element) (k : string) : option string :=
  match only_child sv k with
  | Some (Element _ [] x []) =>
      match x with
      | EmptyString => None
      | _ => Some x
      end
  | _ => None
  end.

(** A numeric field of a state vector: one child with that tag, with
    attributes (the unit) and no children, whose text reads as a float. *)
Definition numeric_payload (sv : element) (k : string) : option float :=
  match only_child sv k with
  | Some (Element _ (_ :: _) x []) => PyText.float_of_str x
  | _ => None
  end.

(** The record a well-formed state vector stands for. *)
Definition record_of (sv : element) : option state_vector :=
  and_then (text_field sv "EPOCH") (fun epoch =>
  and_then (numeric_payload sv "X") (fun x =>
  and_then (numeric_payload sv "Y") (fun y =>
  and_then (numeric_payload sv "Z") (fun z =>
  and_then (numeric_payload sv "X_DOT") (fun x_dot =>
  and_then (numeric_payload sv "Y_DOT") (fun y_dot =>
  and_then (numeric_payload sv "Z_DOT") (fun z_dot =>
  Some {| StateVector.EPOCH := VStr epoch;
          StateVector.X := x; StateVector.Y := y; StateVector.Z := z;
          StateVector.X_DOT := x_dot; StateVector.Y_DOT := y_dot;
          StateVector.Z_DOT := z_dot |}))))))).

(** A field that is missing, and a numeric field without children whose
    text does not read as a float. *)
Definition missing (sv : element) (k : string) : bool :=
  match children_named sv k with
  | [] => true
  | _ => false
  end.

Definition malformed_numeric (sv : element) (k : string) : bool :=
  match only_child sv k with
  | Some (Element _ _ x []) =>
      match PyText.float_of_str x with
      | None => true
      | Some _ => false
      end
  | _ => false
  end.

Definition broken (sv : element) : bool :=
  existsb (missing sv) fields || existsb (malformed_numeric sv) numeric_fields.

(** A feed of two state vectors, the first with an empty [EPOCH]
    element. *)
Definition empty_epoch_feed : element :=
  oem_document
    [ Element "stateVector" [] ""
        [ Element "EPOCH" [] "" [];
          numeric "X" "km" "100.0"; numeric "Y" "km" "200.0";
          numeric "Z" "km" "300.0"; numeric "X_DOT" "km/s" "1.0";
          numeric "Y_DOT" "km/s" "2.0"; numeric "Z_DOT" "km/s" "3.0" ];
      sample_state_vector "2024-045T12:05:00.000Z"
        "150.0" "250.0" "350.0" "1.5" "2.5" "3.5" ].

(** The sample feed cut down to its first state vector. *)
Definition single_sample_feed : element :=
  oem_document
    [ sample_state_vector "2024-045T12:04:00.000Z"
        "100.0" "200.0" "300.0" "1.0" "2.0" "3.0" ].


(** A finite component whose square leaves the range of 64-bit floats. *)
Definition square_overflows (x : float) : bool :=
  is_finite x && is_infinity (x * x)%float.

(** A component with its sign flipped or kept. *)
Definition flip (s : bool) (x : float) : float :=
  if s then (- x)%float else x.

(** A record with the given [EPOCH], at rest at the origin. *)
Definition record_at (epoch : string) : state_vector :=
  {| StateVector.EPOCH := VStr epoch;
     StateVector.X := 0; StateVector.Y := 0; StateVector.Z := 0;
     StateVector.X_DOT := 0; StateVector.Y_DOT := 0; StateVector.Z_DOT := 0 |}.

(** Two records fifteen minutes apart, and a reading of the clock ten
    minutes after the first. *)
Definition sparse_feed : list state_vector :=
  [record_at "2024-045T12:00:00.000Z"; record_at "2024-045T12:15:00.000Z"].

Definition ten_past_noon : Z :=
  match PyTime.strptime_str "2024-045T12:10:00.000Z" with
  | Some t => t
  | None => 0
  end.

(** A frame transform and a geocoder to run [calculate_location] with:
    the position is handed back unchanged and no address is ever found. *)
Definition position_unchanged (epoch : Z) (x y z : float) : float * float * float :=
  (x, y, z).

Definition nothing_found (lat lon : float) : result (option Location) := Ok None.

(** A feed of five state vectors, one minute apart. *)
Definition five_sample_feed : element :=
  oem_document
    (map (fun epoch =>
            sample_state_vector epoch "100.0" "200.0" "300.0" "1.0" "2.0" "3.0")
         [ "2024-045T12:00:00.000Z"; "2024-045T12:01:00.000Z";
           "2024-045T12:02:00.000Z"; "2024-045T12:03:00.000Z";
           "2024-045T12:04:00.000Z" ]).

(** Not negative: a zero, a finite number or an infinity with the sign
    bit clear, or NaN. *)
Definition SFnonneg (f : spec_float) : bool :=
  match f with
  | S754_zero s | S754_infinity s | S754_finite s _ _ => negb s
  | S754_nan => true
  end.

Definition SFis_nan (f : spec_float) : bool :=
  match f with
  | S754_nan => true
  | _ => false
  end.

Definition SFis_zero (f : spec_float) : bool :=
  match f with
  | S754_zero _ => true
  | _ => false
  end.

(** The exponent of the least positive 64-bit float. *)
Definition least : Z := SpecFloat.emin prec emax.

(** A speed that came out and compares equal to zero. *)
Definition speed_is_zero (r : result float) : bool :=
  match r with
  | Ok s => PyFloat.eq s 0
  | Raise _ => false
  end.

(** The integer operations of the float specification, in the form the
    arithmetic tactics know. *)
Ltac std_z :=
  change IntDef.Z.max with Z.max in *;
  change IntDef.Z.min with Z.min in *;
  change IntDef.Z.div2 with Z.div2 in *;
  change IntDef.Z.sub with Z.sub in *;
  change IntDef.Z.add with Z.add in *;
  change IntDef.Z.mul with Z.mul in *.

Ltac lia_least :=
  std_z;
  let H := fresh in
  assert (H : least = -1074) by reflexivity;
  let x := fresh in
  set (x := least) in *; clearbody x; lia.

(** One step of the loops of the selector. *)
Ltac step_scan :=
  cbn [closest_scan full_scan_from full_scan ascending_from bind] in *.

(** An element that [xmltodict] turns into a dict: it has an attribute
    or a child. *)
Definition has_content (e : element) : bool :=
  match attrs e, children e with
  | [], [] => false
  | _, _ => true
  end.

Definition is_dict (v : value) : bool :=
  match v with
  | VDict _ => true
  | _ => false
  end.

(** What [/header] and [/metadata] make of the element they reach: an
    element with an attribute or a child is served as an object, one
    with text alone as that text, and an empty one, whose object is
    [None], is refused. *)
Definition served (e : element) : result response :=
  if has_content e then Ok (jsonify (Object (Xmltodict.convert e)))
  else
    match text e with
    | EmptyString => Raise TypeError
    | x => Ok (Plain x, 200)
    end.

(** The records a response of [/epochs] carries. *)
Definition records_of (r : result response) : option (list state_vector) :=
  match r with
  | Ok (Dumps (Records l) _, _) => Some l
  | _ => None
  end.

(** The sample feed with two comments around an empty one, and with a
    header and a metadata block. *)
Definition commented_data : element :=
  Element "data" [] ""
    [ Element "COMMENT" [] "Units are in kg and m^2" [];
      Element "COMMENT" [] "" [];
      Element "COMMENT" [] "MASS=471702.00" [];
      sample_state_vector "2024-045T12:04:00.000Z"
        "100.0" "200.0" "300.0" "1.0" "2.0" "3.0";
      sample_state_vector "2024-045T12:05:00.000Z"
        "150.0" "250.0" "350.0" "1.5" "2.5" "3.5" ].

Definition commented_oem : element :=
  Element "oem" [("id", "CCSDS_OEM_VERS"); ("version", "2.0")] ""
    [ Element "header" [] ""
        [ Element "CREATION_DATE" [] "2024-045T12:00:00.000Z" [];
          Element "ORIGINATOR" [] "JSC" [] ];
      Element "body" [] ""
        [ Element "segment" [] ""
            [ Element "metadata" [] "" [ Element "OBJECT_NAME" [] "ISS" [] ];
              commented_data ] ] ].

Definition commented_feed : element := Element "ndm" [] "" [commented_oem].

(** A document whose [header] element is empty. *)
Definition empty_header_oem : element :=
  Element "oem" [] "" [ Element "header" [] "" [] ].

Definition empty_header_feed : element := Element "ndm" [] "" [empty_header_oem].

(** The records the loop of [get_current_info] walks past: each [EPOCH]
    reads as a time stamp not beyond the tolerance. *)
Definition walked_past (now : Z) (data : list state_vector) : bool :=
  forallb (fun t =>
             match strptime (StateVector.EPOCH t) with
             | Ok epoch_t => negb (now - epoch_t <? - PyTime.tolerance)
             | Raise _ => false
             end) data.

(** Three records; the last one, far ahead, has an [EPOCH] that is no
    time stamp. *)
Definition feed_with_far_record : list state_vector :=
  [ record_at "2024-045T12:00:00.000Z"; record_at "2024-045T12:08:00.000Z";
    record_at "2024-045T13:00:00.000Z"; record_at "soon" ].

(** The answer of the three handlers of [/epochs/<epoch>...] when no
    record has the epoch. *)
Definition epoch_not_found : result response := Ok (Plain "Epoch not found.", 404).

(** A feed whose second record has a velocity component too large to be
    squared. *)
Definition fast_feed : element :=
  oem_document
    [ sample_state_vector "2024-045T12:04:00.000Z"
        "100.0" "200.0" "300.0" "1.0" "2.0" "3.0";
      sample_state_vector "2024-045T12:05:00.000Z"
        "150.0" "250.0" "350.0" "1e200" "2.5" "3.5" ].

(** A geocoder whose service fails. *)
Definition service_down (lat lon : float) : result (option Location) :=
  Raise ValueError.

(** * Properties *)

Section XmltodictFacts.

Import Xmltodict.

Lemma dict_get_set_same k v d : dict_get k (dict_set k v d) = Some v.
Proof.
  induction d as [|[k' v'] d IH]; simpl.
  - now rewrite String.eqb_refl.
  - destruct (String.eqb k k') eqn:E; simpl; rewrite ?E, ?String.eqb_refl; auto.
Qed.

Lemma dict_get_set_other k k' v d :
  String.eqb k k' = false -> dict_get k (dict_set k' v d) = dict_get k d.
Proof.
  intros Hk. induction d as [|[k2 v2] d IH]; simpl.
  - now rewrite Hk.
  - destruct (String.eqb k' k2) eqn:E; simpl.
    + apply String.eqb_eq in E; subst k2. now rewrite Hk.
    + destruct (String.eqb k k2); auto.
Qed.

Lemma dict_set_not_nil k v d : dict_set k v d <> [].
Proof. destruct d as [|[k' v'] d]; simpl; [|destruct (String.eqb k k')]; discriminate. Qed.

Lemma push_data_other item k k' v :
  String.eqb k k' = false ->
  dict_get k (push_data item k' v) = dict_get k (match item with Some d => d | None => [] end).
Proof.
  intros Hk. unfold push_data.
  destruct (dict_get k' _) as [[]|]; now apply dict_get_set_other.
Qed.

Lemma push_data_not_nil item k v : push_data item k v <> [].
Proof.
  unfold push_data.
  destruct (dict_get k _) as [[]|]; apply dict_set_not_nil.
Qed.

Lemma push_data_same item k v vs :
  is_list v = false ->
  forallb (fun x => negb (is_list x)) vs = true ->
  get_opt k item = grouped vs ->
  dict_get k (push_data item k v) = grouped (vs ++ [v]).
Proof.
  intros Hv Hvs Hget. unfold push_data.
  assert (Hd : dict_get k (match item with Some d => d | None => [] end) = grouped vs)
    by (destruct item; exact Hget).
  rewrite Hd.
  destruct vs as [|a [|b vs]]; simpl in *.
  - apply dict_get_set_same.
  - destruct a; try discriminate; apply dict_get_set_same.
  - apply dict_get_set_same.
Qed.

Lemma push_all_get k kvs : forall item vs,
  forallb (fun kv => negb (is_list (snd kv))) kvs = true ->
  forallb (fun x => negb (is_list x)) vs = true ->
  get_opt k item = grouped vs ->
  get_opt k (push_all item kvs)
  = grouped (vs ++ map snd (filter (fun kv => String.eqb (fst kv) k) kvs)).
Proof.
  unfold push_all.
  induction kvs as [|[k' v'] kvs IH]; intros item vs Hkvs Hvs Hget; simpl in *.
  - now rewrite app_nil_r.
  - apply andb_prop in Hkvs as [Hv' Hkvs].
    apply negb_true_iff in Hv'.
    destruct (String.eqb k' k) eqn:E; simpl.
    + apply String.eqb_eq in E; subst k'.
      rewrite (IH _ (vs ++ [v'])); auto.
      * now rewrite <- app_assoc.
      * rewrite forallb_app, Hvs; simpl. now rewrite Hv'.
      * simpl. now apply push_data_same.
    + apply (IH _ vs); auto.
      simpl. rewrite push_data_other.
      * destruct item; exact Hget.
      * now rewrite String.eqb_sym.
Qed.

Lemma push_all_nonempty kvs : forall item,
  item <> Some [] -> push_all item kvs <> Some [].
Proof.
  unfold push_all.
  induction kvs as [|kv kvs IH]; intros item H; simpl; auto.
  apply IH. intros E. injection E. apply push_data_not_nil.
Qed.

Lemma attr_items_nonempty a : attr_items a <> Some [].
Proof. destruct a; simpl; discriminate. Qed.

Lemma attr_items_get k a : tag_key k = true -> get_opt k (attr_items a) = None.
Proof.
  unfold tag_key. intros Hk. apply andb_prop in Hk as [_ Hk].
  destruct a as [|kv a]; auto.
  unfold attr_items. generalize (kv :: a). intros l. simpl.
  induction l as [|[k1 v1] l IH]; simpl; auto.
  destruct k as [|c k]; simpl; auto.
  rewrite IH.
  destruct (Ascii.eqb c "@"); [simpl in Hk; discriminate|reflexivity].
Qed.

(** An element never becomes a list by itself. *)
Lemma convert_not_list e : is_list (convert e) = false.
Proof.
  destruct e as [t a x cs]; simpl.
  destruct (push_all _ _), x; reflexivity.
Qed.

(** An element that becomes a dict has at least one key, and one that
    becomes a string is not empty. *)
Lemma convert_dict_nonempty e d : convert e = VDict d -> d <> [].
Proof.
  destruct e as [t a x cs]; simpl.
  destruct (push_all _ _) as [d'|] eqn:E.
  - destruct x; intros H; injection H as <-.
    + intros ->. revert E. apply push_all_nonempty, attr_items_nonempty.
    + apply push_data_not_nil.
  - destruct x; discriminate.
Qed.

Lemma convert_str_nonempty e s : convert e = VStr s -> s <> "".
Proof.
  destruct e as [t a x cs]; simpl.
  destruct (push_all _ _), x; intros H; try discriminate.
  injection H as <-. discriminate.
Qed.

(** The entry of a dict for a tag: absent when no child has the tag, the
    child's object when one has, the list of their objects when several
    have. *)
Lemma convert_children e k :
  tag_key k = true ->
  match convert e with
  | VDict d => dict_get k d
  | _ => None
  end = grouped (map convert (children_named e k)).
Proof.
  intros Hk. destruct e as [t a x cs]. unfold children_named. simpl.
  pose proof (push_all_get k (map (fun c => (tag c, convert c)) cs)
                (attr_items a) []) as H.
  simpl in H.
  assert (Hf : map snd (filter (fun kv : string * value => String.eqb (fst kv) k)
                   (map (fun c => (tag c, convert c)) cs))
               = map convert (filter (fun c => String.eqb (tag c) k) cs)).
  { clear. induction cs as [|c cs IH]; simpl; auto.
    destruct (String.eqb (tag c) k); simpl; now rewrite IH. }
  rewrite Hf in H. rewrite <- H; clear H Hf.
  - destruct (push_all _ _) as [d|]; simpl.
    + destruct x; auto.
      rewrite push_data_other; auto.
      unfold tag_key in Hk. apply andb_prop in Hk as [Hk _].
      now apply negb_true_iff in Hk.
    + destruct x; auto.
  - clear. induction cs as [|c cs IH]; simpl; auto.
    now rewrite convert_not_list.
  - reflexivity.
  - now apply attr_items_get.
Qed.

Lemma getitem_only_child e k c :
  tag_key k = true -> only_child e k = Some c ->
  getitem (convert e) k = Ok (convert c).
Proof.
  intros Hk Hc. pose proof (convert_children e k Hk) as H.
  unfold only_child in Hc.
  destruct (children_named e k) as [|c' [|? ?]]; try discriminate.
  injection Hc as ->. simpl in H.
  unfold getitem. destruct (convert e); try discriminate.
  now rewrite H.
Qed.

Lemma data_entry_data_element root d k :
  data_element root = Some d ->
  data_entry (parse root) k = getitem (convert d) k.
Proof.
  unfold data_element, data_entry, parse.
  destruct (String.eqb (tag root) "ndm") eqn:E; [|discriminate].
  apply String.eqb_eq in E.
  destruct (only_child root "oem") as [oem|] eqn:H1; [|discriminate].
  destruct (only_child oem "body") as [body|] eqn:H2; [|discriminate].
  destruct (only_child body "segment") as [segment|] eqn:H3; [|discriminate].
  intros H4.
  unfold getitem at 1. simpl. rewrite E. simpl.
  rewrite (getitem_only_child root "oem" _ eq_refl H1). simpl.
  rewrite (getitem_only_child oem "body" _ eq_refl H2). simpl.
  rewrite (getitem_only_child body "segment" _ eq_refl H3). simpl.
  rewrite (getitem_only_child segment "data" _ eq_refl H4). reflexivity.
Qed.

End XmltodictFacts.

(** ** Rounding in the specification of 64-bit floats *)

Section RoundingFacts.

(** Rounding keeps the sign it is given. *)
Lemma binary_round_aux_sign sx mx ex lx :
  match binary_round_aux prec emax sx mx ex lx with
  | S754_zero s | S754_infinity s | S754_finite s _ _ => s = sx
  | S754_nan => True
  end.
Proof.
  unfold binary_round_aux.
  destruct (shr_fexp _ _ mx ex lx) as [mrs' e'].
  destruct (shr_fexp _ _ _ e' loc_Exact) as [mrs'' e''].
  destruct (shr_m mrs''); auto.
  destruct (Z.leb _ _); auto.
Qed.

Lemma binary_round_aux_nonneg mx ex lx :
  SFnonneg (binary_round_aux prec emax false mx ex lx) = true.
Proof.
  pose proof (binary_round_aux_sign false mx ex lx) as H.
  destruct (binary_round_aux _ _ _ _ _ _); simpl; now subst.
Qed.

Lemma SFmul_self_nonneg f : SFnonneg (SF64mul f f) = true.
Proof.
  destruct f as [s|s| |s m e]; simpl; try reflexivity; try (now destruct s).
  replace (xorb s s) with false by now destruct s.
  apply binary_round_aux_nonneg.
Qed.

Lemma SFadd_nonneg f g :
  SFnonneg f = true -> SFnonneg g = true -> SFnonneg (SF64add f g) = true.
Proof.
  destruct f as [s|s| |s m e], g as [s'|s'| |s' m' e']; simpl; intros Hf Hg;
    try apply negb_true_iff in Hf; try apply negb_true_iff in Hg;
    subst; simpl; auto.
  unfold binary_normalize, binary_round.
  destruct (shl_align _ _ _) as [mz ez]. apply binary_round_aux_nonneg.
Qed.

Lemma digits2_size p : digits2_pos p = Pos.size p.
Proof. induction p; simpl; congruence. Qed.

Lemma Zdigits2_bounds m :
  0 < m -> 2 ^ (Zdigits2 m - 1) <= m < 2 ^ Zdigits2 m.
Proof.
  destruct m as [|p|p]; try lia. intros _.
  change (Zdigits2 (Z.pos p)) with (Z.pos (digits2_pos p)).
  rewrite digits2_size.
  pose proof (Pos.size_gt p) as H1. pose proof (Pos.size_le p) as H2.
  apply Pos2Z.pos_lt_pos in H1. apply Pos2Z.pos_le_pos in H2.
  rewrite Pos2Z.inj_pow in H1, H2.
  change (Z.pos p~0) with (2 * Z.pos p) in H2.
  replace (Z.pos (Pos.size p)) with (Z.succ (Z.pos (Pos.size p) - 1)) in H2 at 1 by lia.
  rewrite Z.pow_succ_r in H2 by lia.
  lia.
Qed.

Lemma Zdigits2_mono m m' : 0 < m <= m' -> Zdigits2 m <= Zdigits2 m'.
Proof.
  intros H.
  pose proof (Zdigits2_bounds m ltac:(lia)) as [H1 _].
  pose proof (Zdigits2_bounds m' ltac:(lia)) as [_ H2].
  assert (Hlt : 2 ^ (Zdigits2 m - 1) < 2 ^ Zdigits2 m') by lia.
  apply Z.pow_lt_mono_r_iff in Hlt; try lia.
  destruct m'; simpl; lia.
Qed.

Lemma shr_1_div2 mrs : 0 <= shr_m mrs -> shr_m (shr_1 mrs) = shr_m mrs / 2.
Proof.
  intros H. rewrite <- Z.div2_div.
  destruct mrs as [m r s]; simpl in *.
  destruct m as [|p|p]; try lia; simpl; auto; destruct p; reflexivity.
Qed.

(** Shifting and rounding a mantissa that is not negative. *)
Lemma shr_1_nonneg mrs : 0 <= shr_m mrs -> 0 <= shr_m (shr_1 mrs).
Proof.
  destruct mrs as [m r s]; simpl.
  destruct m as [|p|p]; simpl; try lia; destruct p; simpl; lia.
Qed.

Lemma iter_shr_1_nonneg p : forall mrs,
  0 <= shr_m mrs -> 0 <= shr_m (iter_pos shr_1 p mrs).
Proof.
  induction p; intros mrs H; simpl; auto using shr_1_nonneg.
Qed.

Lemma shr_fexp_nonneg m e l :
  0 <= m -> 0 <= shr_m (fst (shr_fexp prec emax m e l)).
Proof.
  intros H. unfold shr_fexp, shr.
  assert (H0 : 0 <= shr_m (shr_record_of_loc m l))
    by (destruct l as [|[]]; simpl; exact H).
  destruct (Z.sub _ _); simpl; auto using iter_shr_1_nonneg.
Qed.

Lemma round_nearest_even_nonneg m l : 0 <= m -> 0 <= round_nearest_even m l.
Proof.
  intros H. destruct l as [|[]]; simpl; try lia.
  destruct (Z.even m); lia.
Qed.

Lemma binary_round_aux_not_nan sx mx ex lx :
  0 <= mx -> SFis_nan (binary_round_aux prec emax sx mx ex lx) = false.
Proof.
  intros H. unfold binary_round_aux.
  pose proof (shr_fexp_nonneg mx ex lx H) as H1.
  destruct (shr_fexp _ _ mx ex lx) as [mrs' e']. simpl in H1.
  pose proof (shr_fexp_nonneg
                (round_nearest_even (shr_m mrs') (loc_of_shr_record mrs'))
                e' loc_Exact (round_nearest_even_nonneg _ _ H1)) as H2.
  destruct (shr_fexp _ _ _ e' loc_Exact) as [mrs'' e'']. simpl in H2.
  destruct (shr_m mrs''); auto; [|lia].
  now destruct (Z.leb _ _).
Qed.

Lemma SFsqrt_not_nan f :
  SFnonneg f = true -> SFis_nan (SF64sqrt f) = SFis_nan f.
Proof.
  destruct f as [s|s| |s m e]; simpl; auto; intros H;
    apply negb_true_iff in H; subst; auto.
  unfold SFsqrt_core_binary.
  set (m' := match _ with Zpos _ => _ | Z0 => _ | Zneg _ => _ end).
  assert (Hm : 0 <= m').
  { subst m'. destruct (Z.sub _ _); try lia.
    apply Z.shiftl_nonneg. lia. }
  pose proof (Z.sqrtrem_spec m' Hm) as Hs.
  destruct (Z.sqrtrem m') as [q r].
  apply binary_round_aux_not_nan.
  destruct Hs as [_ Hs]. lia.
Qed.

Lemma iter_shr_1_div p : forall mrs,
  0 <= shr_m mrs ->
  0 <= shr_m (iter_pos shr_1 p mrs)
  /\ shr_m (iter_pos shr_1 p mrs) = shr_m mrs / 2 ^ Z.pos p.
Proof.
  induction p as [p IH|p IH|]; intros mrs H; simpl iter_pos.
  - pose proof (shr_1_nonneg _ H) as H0.
    destruct (IH _ H0) as [H1 E1]. destruct (IH _ H1) as [H2 E2].
    split; auto. rewrite E2, E1, shr_1_div2 by auto.
    rewrite !Z.div_div by lia. f_equal.
    replace (Z.pos p~1) with (Z.pos p + Z.pos p + 1) by lia.
    rewrite !Z.pow_add_r, Z.pow_1_r by lia. ring.
  - destruct (IH _ H) as [H1 E1]. destruct (IH _ H1) as [H2 E2].
    split; auto. rewrite E2, E1.
    rewrite !Z.div_div by lia. f_equal.
    replace (Z.pos p~0) with (Z.pos p + Z.pos p) by lia.
    rewrite !Z.pow_add_r by lia. ring.
  - split; [now apply shr_1_nonneg|]. now apply shr_1_div2.
Qed.

(** Shifting to the canonical exponent keeps a positive mantissa positive
    as long as the number is above the least exponent. *)
Lemma shr_fexp_positive m e l :
  0 < m -> least < Zdigits2 m + e ->
  0 < shr_m (fst (shr_fexp prec emax m e l))
  /\ least < Zdigits2 (shr_m (fst (shr_fexp prec emax m e l)))
            + snd (shr_fexp prec emax m e l).
Proof.
  intros Hm Hk. unfold shr_fexp, shr.
  assert (H0 : shr_m (shr_record_of_loc m l) = m)
    by (destruct l as [|[]]; reflexivity).
  set (n := fexp prec emax (Zdigits2 m + e) - e).
  assert (Hn : n = Z.max (Zdigits2 m + e - 53) (-1074) - e) by reflexivity.
  assert (He : least = -1074) by reflexivity.
  destruct n as [|p|p] eqn:En; simpl fst; simpl snd; rewrite ?H0; try (split; lia).
  destruct (iter_shr_1_div p (shr_record_of_loc m l)) as [Hpos Hdiv];
    [rewrite H0; lia|].
  rewrite H0 in Hdiv. rewrite Hdiv.
  pose proof (Zdigits2_bounds m Hm) as [Hlo Hhi].
  assert (Hp : 0 <= Zdigits2 m - 1 - Z.pos p) by lia.
  assert (Hge : 2 ^ (Zdigits2 m - 1 - Z.pos p) <= m / 2 ^ Z.pos p).
  { apply Z.div_le_lower_bound; [lia|].
    rewrite <- Z.pow_add_r by lia.
    replace (Z.pos p + (Zdigits2 m - 1 - Z.pos p)) with (Zdigits2 m - 1) by lia.
    exact Hlo. }
  assert (Hq : 0 < m / 2 ^ Z.pos p).
  { pose proof (Z.pow_pos_nonneg 2 (Zdigits2 m - 1 - Z.pos p)). lia. }
  split; auto.
  pose proof (Zdigits2_bounds _ Hq) as [_ Hhi'].
  assert (Hlt : 2 ^ (Zdigits2 m - 1 - Z.pos p) < 2 ^ Zdigits2 (m / 2 ^ Z.pos p)) by lia.
  apply Z.pow_lt_mono_r_iff in Hlt; try lia.
  destruct (m / 2 ^ Z.pos p); simpl; lia.
Qed.

Lemma round_nearest_even_ge m l : m <= round_nearest_even m l.
Proof. destruct l as [|[]]; simpl; try lia. destruct (Z.even m); lia. Qed.

(** Rounding a positive mantissa above the least exponent gives a finite
    number or an infinity, never zero. *)
Lemma binary_round_aux_positive sx m e l :
  0 < m -> least < Zdigits2 m + e ->
  match binary_round_aux prec emax sx m e l with
  | S754_finite _ _ _ | S754_infinity _ => True
  | _ => False
  end.
Proof.
  intros Hm Hk. unfold binary_round_aux.
  destruct (shr_fexp_positive m e l Hm Hk) as [H1 H2].
  destruct (shr_fexp prec emax m e l) as [mrs' e']. simpl in H1, H2.
  set (m1 := round_nearest_even (shr_m mrs') (loc_of_shr_record mrs')).
  assert (Hm1 : shr_m mrs' <= m1) by apply round_nearest_even_ge.
  assert (Hd : Zdigits2 (shr_m mrs') <= Zdigits2 m1)
    by (apply Zdigits2_mono; lia).
  destruct (shr_fexp_positive m1 e' loc_Exact) as [H3 _]; [lia|lia|].
  destruct (shr_fexp prec emax m1 e' loc_Exact) as [mrs'' e'']. simpl in H3.
  destruct (shr_m mrs''); try lia.
  now destruct (Z.leb _ _).
Qed.

Lemma valid_exponent s m e :
  valid_binary (S754_finite s m e) = true -> least <= e.
Proof.
  unfold valid_binary, SpecFloat.valid_binary, bounded, canonical_mantissa.
  intros H. apply andb_prop in H as [H _]. apply Z.eqb_eq in H.
  unfold fexp in H. fold least in H. lia_least.
Qed.

Lemma iter_xO_digits m d :
  Z.pos (digits2_pos (Pos.iter xO m d)) = Z.pos (digits2_pos m) + Z.pos d.
Proof.
  induction d as [|d IH] using Pos.peano_ind.
  - simpl. lia.
  - rewrite Pos.iter_succ. simpl digits2_pos. lia.
Qed.

Lemma shl_align_digits m e e' :
  Z.pos (digits2_pos (fst (shl_align m e e'))) + snd (shl_align m e e')
  = Z.pos (digits2_pos m) + e.
Proof.
  unfold shl_align. destruct (e' - e) as [|p|p] eqn:E; cbn [fst snd]; auto.
  rewrite iter_xO_digits. lia.
Qed.

Lemma binary_round_positive m e :
  least <= e -> SFis_zero (binary_round prec emax false m e) = false.
Proof.
  intros He. unfold binary_round.
  pose proof (shl_align_digits m e (fexp prec emax (Z.pos (digits2_pos m) + e))) as H.
  destruct (shl_align _ _ _) as [mz ez]. cbn [fst snd] in H.
  pose proof (binary_round_aux_positive false (Z.pos mz) ez loc_Exact) as Hr.
  destruct (binary_round_aux _ _ _ _ _ _); auto.
  exfalso. apply Hr; [lia|]. cbn [Zdigits2].
  pose proof (Pos2Z.is_pos (digits2_pos m)). lia.
Qed.

Lemma SFadd_zero f g :
  valid_binary f = true -> valid_binary g = true ->
  SFnonneg f = true -> SFnonneg g = true ->
  SFis_zero (SF64add f g) = SFis_zero f && SFis_zero g.
Proof.
  destruct f as [s|s| |s m e], g as [s'|s'| |s' m' e']; simpl SFnonneg;
    intros Vf Vg Hf Hg;
    try apply negb_true_iff in Hf; try apply negb_true_iff in Hg;
    subst; try reflexivity.
  apply valid_exponent in Vf, Vg.
  unfold SF64add, SFadd, cond_Zopp, binary_normalize.
  simpl Z.add. apply binary_round_positive. lia.
Qed.

Lemma SFsqrt_zero f :
  valid_binary f = true -> SFnonneg f = true ->
  SFis_zero (SF64sqrt f) = SFis_zero f.
Proof.
  destruct f as [s|s| |s m e]; simpl SFnonneg; intros Vf Hf;
    try apply negb_true_iff in Hf; subst; try reflexivity.
  apply valid_exponent in Vf.
  unfold SF64sqrt, SFsqrt, SFsqrt_core_binary.
  set (e' := Z.min _ _).
  assert (He' : least <= e' /\ 2 * e' <= e).
  { subst e'. unfold fexp. fold least. std_z. rewrite !Z.div2_div.
    pose proof (Z.div_mod e 2 ltac:(lia)).
    pose proof (Z.mod_pos_bound e 2 ltac:(lia)).
    lia_least. }
  set (m' := match _ with Zpos _ => _ | Z0 => _ | Zneg _ => _ end).
  assert (Hm : 1 <= m').
  { subst m'. destruct (e - 2 * e') as [|p|p] eqn:E; try lia.
    rewrite Z.shiftl_mul_pow2 by lia.
    pose proof (Z.pow_pos_nonneg 2 (Z.pos p)). nia. }
  pose proof (Z.sqrtrem_spec m' ltac:(lia)) as Hs.
  destruct (Z.sqrtrem m') as [q r].
  assert (Hq : 0 < q) by nia.
  pose proof (binary_round_aux_positive false q e'
                (if (r =? 0)%Z then loc_Exact
                 else loc_Inexact (if (r <=? q)%Z then Lt else Gt)) Hq) as Hr.
  destruct (binary_round_aux _ _ _ _ _ _); auto.
  exfalso. apply Hr.
  destruct q as [|q|q]; try lia. cbn [Zdigits2].
  pose proof (Pos2Z.is_pos (digits2_pos q)). lia.
Qed.

End RoundingFacts.

(** ** Facts on 64-bit floats, through their specification *)

Section FloatFacts.

Local Open Scope float_scope.

Lemma SFeqb_self f : SFeqb f f = negb (SFis_nan f).
Proof.
  destruct f as [s|s| |s m e]; unfold SFeqb; simpl; try reflexivity.
  - now destruct s.
  - rewrite Z.compare_refl, Pos.compare_cont_refl. now destruct s.
Qed.

Lemma is_nan_spec x : is_nan x = SFis_nan (Prim2SF x).
Proof.
  unfold is_nan. rewrite FloatAxioms.eqb_spec, SFeqb_self.
  now rewrite negb_involutive.
Qed.

Lemma is_infinity_spec x :
  is_infinity x = match Prim2SF x with S754_infinity _ => true | _ => false end.
Proof.
  unfold is_infinity. rewrite FloatAxioms.eqb_spec, abs_spec.
  now destruct (Prim2SF x) as [s|s| |s m e].
Qed.

Lemma opp_nan x : is_nan x = true -> - x = x.
Proof.
  rewrite is_nan_spec. intros H. apply Prim2SF_inj. rewrite opp_spec.
  now destruct (Prim2SF x).
Qed.

Lemma is_nan_opp x : is_nan (- x) = is_nan x.
Proof. rewrite !is_nan_spec, opp_spec. now destruct (Prim2SF x). Qed.

Lemma is_infinity_opp x : is_infinity (- x) = is_infinity x.
Proof. rewrite !is_infinity_spec, opp_spec. now destruct (Prim2SF x). Qed.

Lemma mul_opp_opp x : (- x) * (- x) = x * x.
Proof.
  apply Prim2SF_inj. rewrite !mul_spec, opp_spec.
  destruct (Prim2SF x) as [s|s| |s m e]; simpl; try reflexivity;
    now destruct s.
Qed.

Lemma mul_nan x : is_nan x = true -> x * x = x.
Proof.
  rewrite is_nan_spec. intros H. apply Prim2SF_inj. rewrite mul_spec.
  now destruct (Prim2SF x).
Qed.

Lemma mul_infinity x : is_infinity x = true -> x * x = infinity.
Proof.
  rewrite is_infinity_spec. intros H. apply Prim2SF_inj. rewrite mul_spec.
  destruct (Prim2SF x) as [s|s| |s m e]; try discriminate.
  now destruct s.
Qed.

Lemma eq_zero_spec x : PyFloat.eq x 0 = SFis_zero (Prim2SF x).
Proof.
  unfold PyFloat.eq. rewrite FloatAxioms.eqb_spec.
  change (Prim2SF 0) with (S754_zero false).
  destruct (Prim2SF x) as [s|s| |s m e]; try reflexivity; now destruct s.
Qed.

Lemma square_nonneg x : SFnonneg (Prim2SF (x * x)) = true.
Proof. rewrite mul_spec. apply SFmul_self_nonneg. Qed.

Lemma add_nonneg x y :
  SFnonneg (Prim2SF x) = true -> SFnonneg (Prim2SF y) = true ->
  SFnonneg (Prim2SF (x + y)) = true.
Proof. rewrite add_spec. apply SFadd_nonneg. Qed.

Lemma add_zero x y :
  SFnonneg (Prim2SF x) = true -> SFnonneg (Prim2SF y) = true ->
  PyFloat.eq (x + y) 0 = PyFloat.eq x 0 && PyFloat.eq y 0.
Proof.
  intros Hx Hy. rewrite !eq_zero_spec, add_spec.
  apply SFadd_zero; auto using Prim2SF_valid.
Qed.

Lemma sqrt_zero x :
  SFnonneg (Prim2SF x) = true -> PyFloat.eq (sqrt x) 0 = PyFloat.eq x 0.
Proof.
  intros Hx. rewrite !eq_zero_spec, sqrt_spec.
  apply SFsqrt_zero; auto using Prim2SF_valid.
Qed.

Lemma sqrt_sum_squares_not_nan a b c :
  is_nan (sqrt (a * a + b * b + c * c)) = is_nan (a * a + b * b + c * c).
Proof.
  rewrite !is_nan_spec, sqrt_spec. apply SFsqrt_not_nan.
  rewrite !add_spec, !mul_spec.
  auto using SFadd_nonneg, SFmul_self_nonneg.
Qed.

End FloatFacts.

(** ** Kinematics *)

Section KinematicsFacts.

Local Open Scope float_scope.

(** The value the test-suite expects, and what happens at the two ends
    of the range. *)
Example speed_123 : calculate_speed 1.0 2.0 3.0 = Ok 3.7416573867739413.
Proof. reflexivity. Qed.

Example speed_big : calculate_speed 1e200 0 0 = Raise OverflowError.
Proof. reflexivity. Qed.

Example speed_tiny : calculate_speed 1e-200 0 0 = Ok 0.
Proof. reflexivity. Qed.

Lemma pow2_spec x :
  PyFloat.pow2 x = if square_overflows x then Raise OverflowError else Ok (x * x).
Proof.
  unfold PyFloat.pow2, square_overflows, is_finite.
  destruct (is_nan x) eqn:Hn; simpl.
  - now rewrite mul_nan.
  - destruct (is_infinity x) eqn:Hi; simpl.
    + now rewrite mul_infinity.
    + now destruct (is_infinity (x * x)).
Qed.

Lemma pow2_opp x : PyFloat.pow2 (- x) = PyFloat.pow2 x.
Proof.
  unfold PyFloat.pow2.
  rewrite is_nan_opp, is_infinity_opp, mul_opp_opp.
  destruct (is_nan x) eqn:Hn; auto.
  now rewrite opp_nan.
Qed.

Lemma pow2_flip s x : PyFloat.pow2 (flip s x) = PyFloat.pow2 x.
Proof. destruct s; simpl; auto using pow2_opp. Qed.

Lemma eqb_zero x : PyFloat.eq x 0 = true -> x = 0 \/ x = - 0.
Proof.
  unfold PyFloat.eq. rewrite FloatAxioms.eqb_spec. intros H.
  rewrite <- (SF2Prim_Prim2SF x).
  change (Prim2SF 0) with (S754_zero false) in H.
  destruct (Prim2SF x) as [s|s| |s m e]; try discriminate.
  - destruct s; [right|left]; reflexivity.
  - destruct s; discriminate.
  - destruct s; discriminate.
Qed.

(** C5, the claim as it stands fails: a component of [1e200] makes
    [calculate_speed] raise [OverflowError], so it is not total. *)
Lemma calculate_speed_overflow :
  calculate_speed 1e200 0 0 = Raise OverflowError.
Proof. reflexivity. Qed.

(** The result of [calculate_speed], case by case. *)
Lemma calculate_speed_cases vx vy vz :
  calculate_speed vx vy vz
  = if square_overflows vx || square_overflows vy || square_overflows vz
    then Raise OverflowError
    else Ok (sqrt (vx * vx + vy * vy + vz * vz)).
Proof.
  unfold calculate_speed.
  rewrite !pow2_spec.
  destruct (square_overflows vx); simpl; auto.
  destruct (square_overflows vy); simpl; auto.
  destruct (square_overflows vz); simpl; auto.
  unfold PyFloat.math_sqrt. rewrite sqrt_sum_squares_not_nan.
  now destruct (is_nan _).
Qed.

(** *** The speed with the C library left open *)

Lemma SFnonneg_not_below f :
  SFnonneg f = true -> SFltb f (S754_zero false) = false.
Proof.
  destruct f as [s|s| |s m e]; simpl; intros H;
    try apply negb_true_iff in H; subst; reflexivity.
Qed.

Lemma SFadd_not_below f g :
  SFltb f (S754_zero false) = false -> SFltb g (S754_zero false) = false ->
  SFltb (SF64add f g) (S754_zero false) = false.
Proof.
  destruct f as [s|s| |s m e], g as [s'|s'| |s' m' e'];
    try destruct s; try destruct s'; intros Hf Hg;
    try discriminate Hf; try discriminate Hg; try reflexivity.
  apply SFnonneg_not_below. now apply SFadd_nonneg.
Qed.

Lemma SFsqrt_nan_not_below f :
  SFltb f (S754_zero false) = false -> SFis_nan (SF64sqrt f) = SFis_nan f.
Proof.
  destruct f as [s|s| |s m e]; try destruct s; intros H;
    try discriminate H; try reflexivity.
  now apply SFsqrt_not_nan.
Qed.

Lemma ltb_zero_spec x : (x <? 0) = SFltb (Prim2SF x) (S754_zero false).
Proof. now rewrite ltb_spec. Qed.

Lemma add_not_below x y :
  (x <? 0) = false -> (y <? 0) = false -> (x + y <? 0) = false.
Proof. rewrite !ltb_zero_spec, add_spec. apply SFadd_not_below. Qed.

(** [math.sqrt] raises on no argument that is not below zero. *)
Lemma math_sqrt_not_below x :
  (x <? 0) = false -> PyFloat.math_sqrt x = Ok (sqrt x).
Proof.
  rewrite ltb_zero_spec. intros H. unfold PyFloat.math_sqrt.
  rewrite !is_nan_spec, sqrt_spec, (SFsqrt_nan_not_below _ H).
  now destruct (SFis_nan _).
Qed.

Lemma leb_not_below y : (0 <=? y) = true -> (y <? 0) = false.
Proof.
  rewrite leb_spec, ltb_zero_spec. change (Prim2SF 0) with (S754_zero false).
  destruct (Prim2SF y) as [s|s| |s m e]; try destruct s; intros H;
    try discriminate H; reflexivity.
Qed.

Lemma nan_not_below x : is_nan x = true -> (x <? 0) = false.
Proof.
  rewrite is_nan_spec, ltb_zero_spec. now destruct (Prim2SF x).
Qed.

(** The base that reaches the library is finite and above zero. *)
Lemma abs_finite_positive x :
  is_nan x = false -> is_infinity x = false -> (x =? 0) = false ->
  is_finite (abs x) = true /\ (0 <? abs x) = true.
Proof.
  unfold is_finite.
  rewrite !is_nan_spec, !is_infinity_spec, FloatAxioms.eqb_spec, ltb_spec, abs_spec.
  change (Prim2SF 0) with (S754_zero false).
  destruct (Prim2SF x) as [s|s| |s m e]; try destruct s; intros H1 H2 H3;
    try discriminate H1; try discriminate H2; try discriminate H3;
    split; reflexivity.
Qed.

Lemma float_pow2_spec pow2 x :
  Libm.float_pow2 pow2 x
  = if Libm.overflows pow2 x then Raise OverflowError
    else Ok (Libm.square pow2 x).
Proof.
  unfold Libm.float_pow2, Libm.overflows, Libm.square, is_finite.
  destruct (is_nan x); simpl; auto.
  destruct (is_infinity x); simpl; auto.
  destruct (x =? 0); simpl; auto.
  destruct (abs x =? 1); simpl; auto.
Qed.

Lemma square_not_below pow2 x :
  Libm.not_negative pow2 -> (Libm.square pow2 x <? 0) = false.
Proof.
  intros H. unfold Libm.square.
  destruct (is_nan x) eqn:Hn; [now apply nan_not_below|].
  destruct (is_infinity x) eqn:Hi; [reflexivity|].
  destruct (x =? 0) eqn:Hz; [reflexivity|].
  destruct (abs x =? 1); [reflexivity|].
  destruct (abs_finite_positive x Hn Hi Hz) as [Hf Hp].
  apply leb_not_below. now apply H.
Qed.

(** The correctly rounded square is such a library, and with it
    [Libm.calculate_speed] is [calculate_speed]. *)
Lemma rounded_square_not_negative : Libm.not_negative Libm.rounded_square.
Proof.
  intros x Hf _. unfold Libm.rounded_square.
  unfold is_finite in Hf. rewrite is_nan_spec, is_infinity_spec in Hf.
  rewrite leb_spec, mul_spec. change (Prim2SF 0) with (S754_zero false).
  pose proof (SFmul_self_nonneg (Prim2SF x)) as H.
  destruct (Prim2SF x) as [s|s| |s m e]; try discriminate Hf.
  - now destruct s.
  - unfold SF64mul in *. cbn [SFmul] in *.
    pose proof (binary_round_aux_not_nan (xorb s s) (Z.pos (m * m)) (e + e)
                  loc_Exact (Pos2Z.is_nonneg _)) as Hn.
    destruct (binary_round_aux _ _ _ _ _ _) as [s'|s'| |s' m' e'];
      simpl in H; try apply negb_true_iff in H; subst;
      try reflexivity; discriminate Hn.
Qed.

Lemma mul_abs_abs x : abs x * abs x = x * x.
Proof.
  apply Prim2SF_inj. rewrite !mul_spec, abs_spec.
  destruct (Prim2SF x) as [s|s| |s m e]; simpl; try reflexivity;
    now destruct s.
Qed.

Lemma abs_one x : (abs x =? 1) = true -> x = 1 \/ x = - 1.
Proof.
  rewrite FloatAxioms.eqb_spec, abs_spec. intros H.
  rewrite <- (SF2Prim_Prim2SF x).
  change (Prim2SF 1)
    with (S754_finite false 4503599627370496%positive (-52)%Z) in H.
  destruct (Prim2SF x) as [s|s| |s m e]; try discriminate H.
  unfold SFeqb, SFabs, SFcompare in H.
  destruct (Z.compare_spec e (-52)%Z) as [He|He|He]; try discriminate H.
  destruct (Pos.compare_cont Eq m 4503599627370496) eqn:Hm; try discriminate H.
  apply Pos.compare_eq in Hm. subst.
  destruct s; [right|left]; reflexivity.
Qed.

Lemma float_pow2_rounded_square x :
  Libm.float_pow2 Libm.rounded_square x = PyFloat.pow2 x.
Proof.
  unfold Libm.float_pow2, PyFloat.pow2, Libm.rounded_square.
  destruct (is_nan x) eqn:Hn; auto.
  destruct (is_infinity x) eqn:Hi; auto.
  destruct (x =? 0) eqn:Hz.
  - destruct (eqb_zero x Hz) as [-> | ->]; reflexivity.
  - destruct (abs x =? 1) eqn:H1.
    + destruct (abs_one x H1) as [-> | ->]; reflexivity.
    + now rewrite mul_abs_abs.
Qed.

Lemma calculate_speed_rounded_square vx vy vz :
  Libm.calculate_speed Libm.rounded_square vx vy vz = calculate_speed vx vy vz.
Proof.
  unfold Libm.calculate_speed, calculate_speed.
  now rewrite !float_pow2_rounded_square.
Qed.

(** C5, amended: whatever the C library answers for [pow (x, 2.0)], as
    long as it is not below zero, [calculate_speed] raises
    [OverflowError] when that answer is infinite for a finite component,
    and otherwise returns [sqrt (vx**2 + vy**2 + vz**2)] in float
    arithmetic, never another exception; at [(1.0, 2.0, 3.0)], where
    [2.0 ** 2] is [4.0] and [3.0 ** 2] is [9.0], it returns
    [3.7416573867739413]. *)
Theorem calculate_speed_spec (pow2 : float -> float) :
  Libm.not_negative pow2 ->
  (forall vx vy vz,
      Libm.calculate_speed pow2 vx vy vz
      = if Libm.overflows pow2 vx || Libm.overflows pow2 vy
           || Libm.overflows pow2 vz
        then Raise OverflowError
        else Ok (sqrt (Libm.square pow2 vx + Libm.square pow2 vy
                       + Libm.square pow2 vz)))
  /\ (pow2 2.0 = 4.0 -> pow2 3.0 = 9.0 ->
      Libm.calculate_speed pow2 1.0 2.0 3.0 = Ok 3.7416573867739413).
Proof.
  intros Hp. split.
  - intros vx vy vz. unfold Libm.calculate_speed.
    rewrite !float_pow2_spec.
    destruct (Libm.overflows pow2 vx); simpl; auto.
    destruct (Libm.overflows pow2 vy); simpl; auto.
    destruct (Libm.overflows pow2 vz); simpl; auto.
    apply math_sqrt_not_below.
    auto using add_not_below, square_not_below.
  - intros H2 H3. unfold Libm.calculate_speed, Libm.float_pow2.
    change (abs 2.0) with 2.0. change (abs 3.0) with 3.0.
    rewrite H2, H3. reflexivity.
Qed.

Lemma calculate_speed_spec_witness :
  Libm.calculate_speed Libm.rounded_square 1.0 2.0 3.0 = Ok 3.7416573867739413.
Proof.
  exact (proj2 (calculate_speed_spec Libm.rounded_square
                  rounded_square_not_negative) eq_refl eq_refl).
Defined.

Lemma square_overflows_not_zero x :
  square_overflows x = true -> PyFloat.eq (x * x) 0 = false.
Proof.
  unfold square_overflows. intros H. apply andb_prop in H as [_ H].
  rewrite is_infinity_spec in H. rewrite eq_zero_spec.
  now destruct (Prim2SF (x * x)).
Qed.

(** The speed is zero exactly when the three squares are. *)
Lemma calculate_speed_zero a b c :
  speed_is_zero (calculate_speed a b c)
  = PyFloat.eq (a * a) 0 && PyFloat.eq (b * b) 0 && PyFloat.eq (c * c) 0.
Proof.
  rewrite calculate_speed_cases.
  destruct (square_overflows a) eqn:Ha; simpl.
  { now rewrite (square_overflows_not_zero a Ha). }
  destruct (square_overflows b) eqn:Hb; simpl.
  { rewrite (square_overflows_not_zero b Hb). now rewrite andb_false_r. }
  destruct (square_overflows c) eqn:Hc; simpl.
  { rewrite (square_overflows_not_zero c Hc). now rewrite andb_false_r. }
  rewrite sqrt_zero, add_zero, add_zero;
    auto using square_nonneg, add_nonneg.
Qed.

(** C9, the claim as it stands fails: the speed of [(1e-200, 0, 0)] is
    zero although the first component is not, its square underflowing. *)
Lemma calculate_speed_zero_of_nonzero :
  calculate_speed 1e-200 0 0 = Ok 0 /\ PyFloat.eq 1e-200 0 = false.
Proof. split; reflexivity. Qed.

(** C9, amended: [calculate_speed] is unchanged by flipping the sign of
    any of its components; it is zero exactly when the squares of the three
    components are zero in float arithmetic, which is so when all three
    components are zero (of either sign). *)
Theorem calculate_speed_symmetric :
  (forall a b c sa sb sc,
      calculate_speed (flip sa a) (flip sb b) (flip sc c) = calculate_speed a b c)
  /\ (forall a b c,
         speed_is_zero (calculate_speed a b c)
         = PyFloat.eq (a * a) 0 && PyFloat.eq (b * b) 0 && PyFloat.eq (c * c) 0)
  /\ (forall a b c,
         PyFloat.eq a 0 = true -> PyFloat.eq b 0 = true -> PyFloat.eq c 0 = true ->
         calculate_speed a b c = Ok 0).
Proof.
  repeat split.
  - intros a b c sa sb sc. unfold calculate_speed.
    now rewrite !pow2_flip.
  - apply calculate_speed_zero.
  - intros a b c Ha Hb Hc.
    destruct (eqb_zero a Ha) as [-> | ->], (eqb_zero b Hb) as [-> | ->],
             (eqb_zero c Hc) as [-> | ->]; reflexivity.
Qed.

Lemma calculate_speed_symmetric_witness :
  calculate_speed (- 0) 0 (- 0) = Ok 0.
Proof.
  apply (proj2 (proj2 calculate_speed_symmetric)); reflexivity.
Defined.

(** The expression written out in the handler of [/epochs/<epoch>/speed]
    is the body of [calculate_speed]. *)
Lemma inline_speed_agrees (data : state_vector) :
  inline_speed data
  = calculate_speed (StateVector.X_DOT data) (StateVector.Y_DOT data)
                    (StateVector.Z_DOT data).
Proof. reflexivity. Qed.

End KinematicsFacts.

(** ** Ephemeris Parser *)

Section ParserFacts.

Import Xmltodict.

Lemma for_each_ok {A B} (f : A -> result B) l rs :
  Forall2 (fun x r => f x = Ok r) l rs -> for_each f l = Ok rs.
Proof.
  induction 1 as [|x r l rs Hx _ IH]; simpl; auto.
  now rewrite Hx, IH.
Qed.

Lemma for_each_raise {A B} (f : A -> result B) l :
  Exists (fun x => is_ok (f x) = false) l -> is_ok (for_each f l) = false.
Proof.
  induction 1 as [x l Hx|x l _ IH]; simpl.
  - now destruct (f x).
  - destruct (f x); simpl; auto.
    now destruct (for_each f l).
Qed.

(** The sample document of the test-suite parses to its two records. *)
Example parse_sample_xml_data :
  parse_xml_data sample_xml_data
  = Ok [ {| StateVector.EPOCH := VStr "2024-045T12:04:00.000Z";
            StateVector.X := 100; StateVector.Y := 200; StateVector.Z := 300;
            StateVector.X_DOT := 1; StateVector.Y_DOT := 2;
            StateVector.Z_DOT := 3 |};
         {| StateVector.EPOCH := VStr "2024-045T12:05:00.000Z";
            StateVector.X := 150; StateVector.Y := 250; StateVector.Z := 350;
            StateVector.X_DOT := 1.5; StateVector.Y_DOT := 2.5;
            StateVector.Z_DOT := 3.5 |} ].
Proof. vm_compute. reflexivity. Qed.

(** With two state vectors or more, the loop runs over their objects in
    document order. *)
Lemma parse_xml_data_many root d svs :
  data_element root = Some d ->
  children_named d "stateVector" = svs ->
  (2 <= List.length svs)%nat ->
  parse_xml_data root = for_each t_data (map convert svs).
Proof.
  intros Hd Hsvs Hlen. unfold parse_xml_data.
  rewrite (data_entry_data_element _ _ _ Hd).
  pose proof (convert_children d "stateVector" eq_refl) as H.
  rewrite Hsvs in H.
  destruct svs as [|sv1 [|sv2 svs]]; simpl in Hlen; try lia.
  simpl in H. unfold getitem.
  destruct (convert d); try discriminate.
  now rewrite H.
Qed.

Lemma attr_items_no_text a : get_opt "#text" (attr_items a) = None.
Proof.
  destruct a as [|kv a]; auto.
  unfold attr_items. generalize (kv :: a). intros l. simpl.
  induction l as [|kv' l IH]; simpl; auto.
Qed.

Lemma convert_leaf t a x :
  convert (Element t a x [])
  = match attr_items a, x with
    | Some d, EmptyString => VDict d
    | Some d, _ => VDict (push_data (Some d) "#text" (VStr x))
    | None, EmptyString => VNone
    | None, _ => VStr x
    end.
Proof. reflexivity. Qed.

(** The text of an element without children, as the loop reads it. *)
Lemma getitem_leaf_text t a x :
  getitem (convert (Element t a x [])) "#text"
  = match a, x with
    | [], _ => Raise TypeError
    | _, EmptyString => Raise KeyError
    | _, _ => Ok (VStr x)
    end.
Proof.
  rewrite convert_leaf.
  pose proof (attr_items_no_text a) as H.
  destruct (attr_items a) as [d|] eqn:E.
  - destruct a as [|kv a]; [discriminate|].
    destruct x as [|ch x]; unfold getitem.
    + simpl in H. now rewrite H.
    + now rewrite (push_data_same (Some d) "#text" _ []).
  - destruct a as [|kv a]; [|discriminate]. now destruct x.
Qed.

Lemma float_of_str_empty : PyText.float_of_str "" = None.
Proof. reflexivity. Qed.

Lemma numeric_field_payload sv k f :
  tag_key k = true ->
  numeric_payload sv k = Some f -> numeric_field (convert sv) k = Ok f.
Proof.
  intros Hk. unfold numeric_payload, numeric_field.
  destruct (only_child sv k) as [c|] eqn:Hc; [|discriminate].
  rewrite (getitem_only_child _ _ _ Hk Hc).
  destruct c as [t [|kv a] x [|c' cs]]; try discriminate.
  intros Hf.
  destruct x as [|ch x]; [now rewrite float_of_str_empty in Hf|].
  cbn [bind]. rewrite getitem_leaf_text. cbn [bind float_of].
  now rewrite Hf.
Qed.

Lemma getitem_text_field sv k x :
  tag_key k = true ->
  text_field sv k = Some x -> getitem (convert sv) k = Ok (VStr x).
Proof.
  intros Hk. unfold text_field.
  destruct (only_child sv k) as [c|] eqn:Hc; [|discriminate].
  rewrite (getitem_only_child _ _ _ Hk Hc).
  destruct c as [t [|kv a] [|ch y] [|c' cs]]; try discriminate.
  now intros [= <-].
Qed.

Lemma t_data_record_of sv r :
  record_of sv = Some r -> t_data (convert sv) = Ok r.
Proof.
  unfold record_of, t_data, and_then.
  destruct (text_field sv "EPOCH") as [epoch|] eqn:H0; [|discriminate].
  destruct (numeric_payload sv "X") as [x|] eqn:H1; [|discriminate].
  destruct (numeric_payload sv "Y") as [y|] eqn:H2; [|discriminate].
  destruct (numeric_payload sv "Z") as [z|] eqn:H3; [|discriminate].
  destruct (numeric_payload sv "X_DOT") as [x_dot|] eqn:H4; [|discriminate].
  destruct (numeric_payload sv "Y_DOT") as [y_dot|] eqn:H5; [|discriminate].
  destruct (numeric_payload sv "Z_DOT") as [z_dot|] eqn:H6; [|discriminate].
  intros [= <-].
  rewrite (getitem_text_field sv "EPOCH" _ eq_refl H0).
  rewrite (numeric_field_payload sv "X" _ eq_refl H1),
          (numeric_field_payload sv "Y" _ eq_refl H2),
          (numeric_field_payload sv "Z" _ eq_refl H3),
          (numeric_field_payload sv "X_DOT" _ eq_refl H4),
          (numeric_field_payload sv "Y_DOT" _ eq_refl H5),
          (numeric_field_payload sv "Z_DOT" _ eq_refl H6).
  reflexivity.
Qed.

Lemma record_of_epoch sv r :
  record_of sv = Some r -> exists s, StateVector.EPOCH r = VStr s.
Proof.
  unfold record_of, and_then.
  destruct (text_field sv "EPOCH") as [epoch|]; [|discriminate].
  repeat (destruct (numeric_payload sv _); [|discriminate]).
  intros [= <-]. now exists epoch.
Qed.

(** A record comes out only when every field could be read. *)
Lemma t_data_ok t :
  is_ok (t_data t) = true ->
  forallb (fun k => is_ok (getitem t k)) fields = true
  /\ forallb (fun k => is_ok (numeric_field t k)) numeric_fields = true.
Proof.
  unfold t_data. simpl.
  destruct (getitem t "EPOCH"); simpl; [|discriminate].
  assert (Hn : forall k, is_ok (numeric_field t k) = true -> is_ok (getitem t k) = true).
  { intros k. unfold numeric_field. now destruct (getitem t k). }
  destruct (numeric_field t "X") eqn:H1; simpl; [|discriminate].
  destruct (numeric_field t "Y") eqn:H2; simpl; [|discriminate].
  destruct (numeric_field t "Z") eqn:H3; simpl; [|discriminate].
  destruct (numeric_field t "X_DOT") eqn:H4; simpl; [|discriminate].
  destruct (numeric_field t "Y_DOT") eqn:H5; simpl; [|discriminate].
  destruct (numeric_field t "Z_DOT") eqn:H6; simpl; [|discriminate].
  intros _.
  rewrite !Hn by (rewrite ?H1, ?H2, ?H3, ?H4, ?H5, ?H6; reflexivity).
  auto.
Qed.

Lemma getitem_missing sv k :
  tag_key k = true -> missing sv k = true -> is_ok (getitem (convert sv) k) = false.
Proof.
  intros Hk. unfold missing.
  pose proof (convert_children sv k Hk) as H.
  destruct (children_named sv k); [|discriminate]. intros _.
  simpl in H. unfold getitem.
  destruct (convert sv); auto. now rewrite H.
Qed.

Lemma numeric_field_malformed sv k :
  tag_key k = true -> malformed_numeric sv k = true ->
  is_ok (numeric_field (convert sv) k) = false.
Proof.
  intros Hk. unfold malformed_numeric, numeric_field.
  destruct (only_child sv k) as [c|] eqn:Hc; [|discriminate].
  rewrite (getitem_only_child _ _ _ Hk Hc).
  destruct c as [t a x [|c' cs]]; [|discriminate].
  destruct (PyText.float_of_str x) eqn:Hf; [discriminate|]. intros _.
  cbn [bind]. rewrite getitem_leaf_text.
  destruct a as [|kv a], x as [|ch x]; try reflexivity.
  cbn [bind float_of]. now rewrite Hf.
Qed.

Lemma fields_tag_key : forallb tag_key fields = true.
Proof. reflexivity. Qed.

Lemma t_data_broken sv : broken sv = true -> is_ok (t_data (convert sv)) = false.
Proof.
  intros Hb. destruct (is_ok (t_data (convert sv))) eqn:E; auto.
  apply t_data_ok in E as [E1 E2].
  rewrite forallb_forall in E1, E2.
  pose proof fields_tag_key as Ht. rewrite forallb_forall in Ht.
  unfold broken in Hb. apply orb_prop in Hb as [Hb|Hb];
    apply existsb_exists in Hb as [k [Hin Hk]].
  - specialize (E1 k Hin).
    rewrite getitem_missing in E1 by auto. discriminate.
  - assert (Hin' : In k fields) by now right.
    specialize (E2 k Hin).
    rewrite numeric_field_malformed in E2 by auto. discriminate.
Qed.

(** The sibling read path of the comments does tell a single element
    from several: one comment comes back as a one-element list. *)
Lemma get_comments_single root d c :
  data_element root = Some d ->
  children_named d "COMMENT" = [c] ->
  get_comments (Some root) = Ok (jsonify (Comments [convert c])).
Proof.
  intros Hd Hc. unfold get_comments.
  rewrite (data_entry_data_element _ _ _ Hd).
  pose proof (convert_children d "COMMENT" eq_refl) as H.
  rewrite Hc in H. simpl in H. unfold getitem.
  destruct (convert d); try discriminate.
  rewrite H. simpl.
  pose proof (convert_not_list c) as Hl.
  now destruct (convert c).
Qed.

(** C1, on the code: a feed whose [data] element holds exactly one
    [stateVector] makes [parse_xml_data] raise [TypeError]; no one-element
    sequence comes back. *)
Theorem parse_xml_data_single_state_vector root d sv :
  data_element root = Some d ->
  children_named d "stateVector" = [sv] ->
  parse_xml_data root = Raise TypeError.
Proof.
  intros Hd Hsv. unfold parse_xml_data.
  rewrite (data_entry_data_element _ _ _ Hd).
  pose proof (convert_children d "stateVector" eq_refl) as H.
  rewrite Hsv in H. simpl in H. unfold getitem.
  destruct (convert d); try discriminate.
  rewrite H. simpl.
  pose proof (convert_not_list sv) as Hl.
  destruct (convert sv) as [|x|kvs|l] eqn:E; simpl; auto; try discriminate.
  - apply convert_str_nonempty in E. destruct x; [contradiction|reflexivity].
  - apply convert_dict_nonempty in E. destruct kvs; [contradiction|reflexivity].
Qed.

Lemma parse_xml_data_single_state_vector_witness :
  parse_xml_data single_sample_feed = Raise TypeError.
Proof.
  eapply (parse_xml_data_single_state_vector single_sample_feed); reflexivity.
Defined.

(** C6, the claim as it stands fails: a state vector whose [EPOCH]
    element is empty is no parse error; its record is returned with
    [None] for [EPOCH]. *)
Lemma parse_xml_data_empty_epoch :
  exists r1 r2,
    parse_xml_data empty_epoch_feed = Ok [r1; r2]
    /\ StateVector.EPOCH r1 = VNone.
Proof. vm_compute. eauto. Qed.

(** C6, amended: for a feed with N >= 2 state vectors, all well formed,
    [parse_xml_data] returns exactly the N records they stand for, in feed
    order, each numeric field the float read from its text and [EPOCH] a
    string; and when some state vector lacks one of the seven fields or has
    a numeric field whose text does not read as a float, the call raises
    and returns no record. *)
Theorem parse_xml_data_records root d svs :
  data_element root = Some d ->
  children_named d "stateVector" = svs ->
  (2 <= List.length svs)%nat ->
  (forall rs,
      Forall2 (fun sv r => record_of sv = Some r) svs rs ->
      parse_xml_data root = Ok rs
      /\ List.length rs = List.length svs
      /\ Forall (fun r => exists s, StateVector.EPOCH r = VStr s) rs)
  /\ (existsb broken svs = true -> is_ok (parse_xml_data root) = false).
Proof.
  intros Hd Hsvs Hlen.
  rewrite (parse_xml_data_many _ _ _ Hd Hsvs Hlen). split.
  - intros rs Hrs. repeat split.
    + apply for_each_ok. clear -Hrs.
      induction Hrs; simpl; constructor; auto using t_data_record_of.
    + symmetry. eapply Forall2_length; eauto.
    + clear -Hrs. induction Hrs; constructor; eauto using record_of_epoch.
  - intros Hb. apply for_each_raise.
    apply existsb_exists in Hb as [sv [Hin Hb]].
    apply Exists_exists. exists (convert sv). split.
    + now apply in_map.
    + now apply t_data_broken.
Qed.

Lemma parse_xml_data_records_witness :
  exists rs, parse_xml_data sample_xml_data = Ok rs /\ List.length rs = 2%nat.
Proof.
  destruct (parse_xml_data sample_xml_data) as [rs|e] eqn:E; [|discriminate E].
  exists rs.
  assert (Hd : data_element sample_xml_data
               = Some (Element "data" [] "" (children_named
                   (Element "data" [] ""
                      [ sample_state_vector "2024-045T12:04:00.000Z"
                          "100.0" "200.0" "300.0" "1.0" "2.0" "3.0";
                        sample_state_vector "2024-045T12:05:00.000Z"
                          "150.0" "250.0" "350.0" "1.5" "2.5" "3.5" ])
                   "stateVector"))) by reflexivity.
  destruct (parse_xml_data_records sample_xml_data _ _ Hd eq_refl
              ltac:(simpl; lia)) as [H _].
  destruct (H rs) as [H1 [H2 _]].
  - vm_compute in E. injection E as <-. repeat constructor.
  - split; [reflexivity|exact H2].
Defined.

End ParserFacts.

(** ** Nearest-Epoch Selector *)

Section SelectorFacts.

Import PyTime.

Lemma strptime_str_range s t : strptime_str s = Some t -> is_datetime t = true.
Proof.
  unfold strptime_str, and_then.
  repeat match goal with
         | |- match ?x with _ => _ end = _ -> _ =>
             destruct x eqn:?; try discriminate
         end.
  intros [= <-]. assumption.
Qed.

Lemma strptime_range v t : strptime v = Ok t -> 0 <= t < datetime_end.
Proof.
  destruct v as [|s| |]; simpl; try discriminate.
  destruct (strptime_str s) as [t'|] eqn:E; [|discriminate].
  intros [= <-]. apply strptime_str_range in E.
  unfold is_datetime in E. lia.
Qed.

Lemma ascending_from_weaken data : forall lo lo',
  lo <= lo' -> ascending_from lo' data = true -> ascending_from lo data = true.
Proof.
  destruct data as [|t rest]; simpl; auto.
  intros lo lo' Hlo. destruct (strptime _); auto.
  intros H. apply andb_prop in H as [H1 H2].
  rewrite H2, andb_true_r. lia.
Qed.

Lemma ascending_from_in data : forall lo r,
  ascending_from lo data = true -> In r data ->
  exists t, strptime (StateVector.EPOCH r) = Ok t /\ lo <= t.
Proof.
  induction data as [|t rest IH]; simpl; intros lo r H Hin; [contradiction|].
  destruct (strptime (StateVector.EPOCH t)) as [et|] eqn:E; [|discriminate].
  apply andb_prop in H as [H1 H2].
  destruct Hin as [<-|Hin].
  - exists et. split; auto. lia.
  - destruct (IH _ _ H2 Hin) as [t' [Ht' Hle]].
    exists t'. split; auto. lia.
Qed.

Lemma full_scan_from_in now data : forall best least r,
  full_scan_from now best least data = Ok r -> r = best \/ In r data.
Proof.
  induction data as [|t rest IH]; simpl; intros best least r H.
  - injection H as <-. auto.
  - destruct (strptime _); simpl in H; [|discriminate].
    destruct (_ <? _); apply IH in H; destruct H as [->|H]; auto.
Qed.

(** The full scan does return a record at the least distance. *)
Lemma full_scan_from_least now data : forall best least r tb,
  strptime (StateVector.EPOCH best) = Ok tb -> least = Z.abs (now - tb) ->
  full_scan_from now best least data = Ok r ->
  exists tr, strptime (StateVector.EPOCH r) = Ok tr
    /\ Z.abs (now - tr) <= least
    /\ forall r' t', In r' data -> strptime (StateVector.EPOCH r') = Ok t' ->
                     Z.abs (now - tr) <= Z.abs (now - t').
Proof.
  induction data as [|t rest IH]; simpl; intros best least r tb Hb Hl H.
  - injection H as <-. exists tb. repeat split; auto; [lia|contradiction].
  - destruct (strptime (StateVector.EPOCH t)) as [et|] eqn:E; simpl in H; [|discriminate].
    destruct (Z.abs (now - et) <? least) eqn:C.
    + destruct (IH _ _ _ et E eq_refl H) as [tr [Hr [Hle Hmin]]].
      exists tr. repeat split; auto; [lia|].
      intros r' t' [<-|Hin] Ht'; eauto.
      rewrite E in Ht'. injection Ht' as <-. exact Hle.
    + destruct (IH _ _ _ tb Hb Hl H) as [tr [Hr [Hle Hmin]]].
      exists tr. repeat split; auto.
      intros r' t' [<-|Hin] Ht'; eauto.
      rewrite E in Ht'. injection Ht' as <-. lia.
Qed.

Lemma full_scan_least now data r :
  full_scan now data = Ok (Some r) ->
  In r data
  /\ exists tr, strptime (StateVector.EPOCH r) = Ok tr
       /\ forall r' t', In r' data -> strptime (StateVector.EPOCH r') = Ok t' ->
                        Z.abs (now - tr) <= Z.abs (now - t').
Proof.
  destruct data as [|t rest]; simpl; [discriminate|].
  destruct (strptime (StateVector.EPOCH t)) as [et|] eqn:E; simpl; [|discriminate].
  destruct (full_scan_from _ _ _ _) as [r0|] eqn:F; simpl; [|discriminate].
  intros [= ->]. split.
  - apply full_scan_from_in in F. destruct F; auto.
  - destruct (full_scan_from_least _ _ _ _ _ et E eq_refl F) as [tr [Hr [Hle Hmin]]].
    exists tr. split; auto.
    intros r' t' [<-|Hin] Ht'; eauto.
    rewrite E in Ht'. now injection Ht' as <-.
Qed.

(** Once a record is held, the loop and the full scan move together
    over an ascending remainder, as long as the record the full scan ends
    on is not beyond the tolerance. *)
Lemma closest_scan_full_scan now rest : forall b md tb r tr,
  strptime (StateVector.EPOCH b) = Ok tb -> md = now - tb ->
  ascending_from tb rest = true ->
  full_scan_from now b (Z.abs md) rest = Ok r ->
  strptime (StateVector.EPOCH r) = Ok tr -> - tolerance <= now - tr ->
  closest_scan now rest (Some b) md = Ok (Some r).
Proof.
  induction rest as [|t rest IH]; intros b md tb r tr Hb Hmd Hasc Hfull Hr Htol;
    step_scan.
  - now injection Hfull as <-.
  - destruct (strptime (StateVector.EPOCH t)) as [et|] eqn:E; [|discriminate].
    step_scan. apply andb_prop in Hasc as [Hle Hasc]. apply Z.leb_le in Hle.
    destruct (now - et <? - tolerance) eqn:Hbreak.
    + apply Z.ltb_lt in Hbreak.
      assert (Hfull' : full_scan_from now b (Z.abs md) (t :: rest) = Ok r)
        by (step_scan; rewrite E; exact Hfull).
      apply full_scan_from_in in Hfull'. destruct Hfull' as [->|Hin]; auto.
      assert (Hasc' : ascending_from et (t :: rest) = true)
        by (step_scan; rewrite E, Z.leb_refl; exact Hasc).
      destruct (ascending_from_in _ _ _ Hasc' Hin) as [t' [Ht' Hge]].
      rewrite Hr in Ht'. injection Ht' as <-. lia.
    + apply Z.ltb_ge in Hbreak.
      assert (Hsame : (Z.abs (now - et) <? md) = (Z.abs (now - et) <? Z.abs md)).
      { destruct (Z.abs (now - et) <? md) eqn:C1, (Z.abs (now - et) <? Z.abs md) eqn:C2;
          auto; rewrite ?Z.ltb_lt, ?Z.ltb_ge in *; lia. }
      rewrite Hsame. destruct (Z.abs (now - et) <? Z.abs md).
      * eapply (IH t (now - et) et); eauto.
      * eapply (IH b md tb); eauto.
        eapply ascending_from_weaken; eauto.
Qed.

(** The loop never settles on a record beyond the tolerance, so the
    condition of the amended claim cannot be dropped. *)
Lemma closest_scan_within now data : forall c md r,
  closest_scan now data c md = Ok (Some r) ->
  c = Some r
  \/ exists t, strptime (StateVector.EPOCH r) = Ok t /\ - tolerance <= now - t.
Proof.
  induction data as [|t rest IH]; intros c md r H; step_scan.
  - left. now injection H.
  - destruct (strptime (StateVector.EPOCH t)) as [et|] eqn:E; [|discriminate].
    step_scan.
    destruct (now - et <? - tolerance) eqn:Hbreak.
    + left. now injection H.
    + apply Z.ltb_ge in Hbreak.
      destruct (Z.abs (now - et) <? md); apply IH in H; auto.
      destruct H as [[= <-]|H]; eauto.
Qed.

(** X9: the record [get_current_info] returns is never more than 4
    minutes 1 millisecond ahead of [now]. *)
Lemma get_current_info_within now data r speed :
  get_current_info now data = Ok (r, speed) ->
  exists t, strptime (StateVector.EPOCH r) = Ok t /\ - tolerance <= now - t.
Proof.
  unfold get_current_info.
  destruct (closest_scan now data None timedelta_max) as [[c|]|] eqn:E;
    cbn [bind]; try discriminate.
  destruct (calculate_speed _ _ _); cbn [bind]; [|discriminate].
  intros [= -> _].
  apply closest_scan_within in E. destruct E as [E|E]; [discriminate|exact E].
Qed.

(** C2, the claim as it stands fails: on a sorted two-record feed whose
    second record lies five minutes ahead of the clock, the loop stops
    before it and returns the first record, ten minutes back, while the
    full scan returns the second. *)
Lemma get_current_info_misses_nearest :
  chronological sparse_feed = true
  /\ get_current_info ten_past_noon sparse_feed
     = Ok (record_at "2024-045T12:00:00.000Z", 0%float)
  /\ full_scan ten_past_noon sparse_feed
     = Ok (Some (record_at "2024-045T12:15:00.000Z")).
Proof. vm_compute. auto. Qed.

(** C2, amended: on a non-empty feed in ascending chronological order,
    when the record the full scan selects (the first at the least
    [|now - epoch|]) is not more than 4 minutes 1 millisecond ahead of
    [now], [get_current_info] returns that record with the speed
    [calculate_speed] gives for its velocity. *)
Theorem get_current_info_full_scan now data r tr :
  is_datetime now = true ->
  chronological data = true ->
  full_scan now data = Ok (Some r) ->
  strptime (StateVector.EPOCH r) = Ok tr ->
  - tolerance <= now - tr ->
  get_current_info now data
  = (speed <- calculate_speed (StateVector.X_DOT r) (StateVector.Y_DOT r)
                              (StateVector.Z_DOT r) ;;
     Ok (r, speed)).
Proof.
  intros Hnow Hasc Hfull Hr Htol.
  assert (Hscan : closest_scan now data None timedelta_max = Ok (Some r)).
  { destruct data as [|t rest]; [discriminate|].
    unfold chronological in Hasc. step_scan.
    destruct (strptime (StateVector.EPOCH t)) as [et|] eqn:E; [|discriminate].
    step_scan. apply andb_prop in Hasc as [_ Hasc].
    destruct (full_scan_from now t _ rest) as [r0|] eqn:F; [|discriminate].
    step_scan. injection Hfull as ->.
    pose proof (strptime_range _ _ E) as Het.
    unfold is_datetime in Hnow. apply andb_prop in Hnow as [Hn1 Hn2].
    apply Z.leb_le in Hn1. apply Z.ltb_lt in Hn2.
    destruct (now - et <? - tolerance) eqn:Hbreak.
    - apply Z.ltb_lt in Hbreak.
      apply full_scan_from_in in F. destruct F as [->|Hin].
      + rewrite E in Hr. injection Hr as <-. lia.
      + destruct (ascending_from_in _ _ _ Hasc Hin) as [t' [Ht' Hge]].
        rewrite Hr in Ht'. injection Ht' as <-. lia.
    - replace (Z.abs (now - et) <? timedelta_max) with true.
      + eapply closest_scan_full_scan; eauto.
      + symmetry. apply Z.ltb_lt.
        unfold timedelta_max, datetime_end in *. lia. }
  unfold get_current_info. now rewrite Hscan.
Qed.

Lemma get_current_info_full_scan_witness :
  get_current_info ten_past_noon
    [record_at "2024-045T12:00:00.000Z"; record_at "2024-045T12:09:00.000Z"]
  = Ok (record_at "2024-045T12:09:00.000Z", 0%float).
Proof.
  pose (t := match strptime_str "2024-045T12:09:00.000Z" with
             | Some t => t
             | None => 0
             end).
  apply (get_current_info_full_scan ten_past_noon _
           (record_at "2024-045T12:09:00.000Z") t);
    try reflexivity.
  vm_compute. discriminate.
Defined.

(** C3, on the code: applied to an empty sequence, [get_current_info]
    subscripts [closest] while it is [None]; the [TypeError] escapes and
    no error of its own is reported. *)
Theorem get_current_info_empty now :
  get_current_info now [] = Raise TypeError.
Proof. reflexivity. Qed.

End SelectorFacts.

(** ** Geolocation Resolver *)

Section GeolocationFacts.

Variable to_geodetic : Z -> float -> float -> float -> float * float * float.
Variable reverse : float -> float -> result (option Location).

(** C4: when the instant and the position of a record are worked out
    and the reverse geocoder finds nothing for them, [calculate_location]
    returns the coordinates with the text [Address not found] for the
    address; nothing is raised and the address is a string. *)
Theorem calculate_location_not_found data epoch lat lon alt :
  strptime (StateVector.EPOCH data) = Ok epoch ->
  to_geodetic epoch (StateVector.X data) (StateVector.Y data) (StateVector.Z data)
  = (lat, lon, alt) ->
  reverse lat lon = Ok None ->
  calculate_location to_geodetic reverse data
  = Ok (lat, lon, alt, "Address not found").
Proof.
  intros He Hg Hr. unfold calculate_location.
  rewrite He. cbn [bind]. rewrite Hg, Hr. reflexivity.
Qed.

(** A match is passed on as the geocoder words it. *)
Lemma calculate_location_found data epoch lat lon alt l :
  strptime (StateVector.EPOCH data) = Ok epoch ->
  to_geodetic epoch (StateVector.X data) (StateVector.Y data) (StateVector.Z data)
  = (lat, lon, alt) ->
  reverse lat lon = Ok (Some l) ->
  calculate_location to_geodetic reverse data = Ok (lat, lon, alt, address l).
Proof.
  intros He Hg Hr. unfold calculate_location.
  rewrite He. cbn [bind]. rewrite Hg, Hr. reflexivity.
Qed.

End GeolocationFacts.

Lemma calculate_location_not_found_witness :
  calculate_location position_unchanged nothing_found
    (record_at "2024-045T12:00:00.000Z")
  = Ok (0%float, 0%float, 0%float, "Address not found").
Proof.
  eapply (calculate_location_not_found position_unchanged nothing_found);
    reflexivity.
Defined.

(** ** Route handlers *)

Section HandlerFacts.

Lemma slice_prefix {A} (l : list A) n :
  0 <= n <= Z.of_nat (List.length l) -> slice l 0 n = firstn (Z.to_nat n) l.
Proof.
  intros H. unfold slice.
  replace (0 <? 0) with false by reflexivity.
  replace (n <? 0) with false by (symmetry; apply Z.ltb_ge; lia).
  rewrite Z.min_l, Z.min_l by lia.
  now rewrite Z.sub_0_r.
Qed.

Lemma slice_all {A} (l : list A) : slice l 0 (Z.of_nat (List.length l)) = l.
Proof.
  rewrite slice_prefix by lia.
  rewrite Nat2Z.id. apply firstn_all.
Qed.

Lemma epoch_is_spec epoch r :
  epoch_is epoch r = true <-> StateVector.EPOCH r = VStr epoch.
Proof.
  unfold epoch_is. destruct (StateVector.EPOCH r); split; try discriminate.
  - intros H. apply String.eqb_eq in H. now subst.
  - intros [= ->]. apply String.eqb_refl.
Qed.

(** C7: on [/epochs] a parameter that is absent takes its default, the
    length of the list for [limit] and 0 for [offset], and the response
    carries the slice [offset, offset + limit) of the parsed records, the
    whole list when both are absent; with [limit=5] and [offset=0] on a
    list of five records or more it carries exactly the first five. *)
Theorem get_epochs_slice xml data :
  parse_xml_data xml = Ok data ->
  (forall limit offset l o,
      query_int limit (Z.of_nat (List.length data)) = Some l ->
      query_int offset 0 = Some o ->
      exists trailer,
        get_epochs (Some xml) limit offset
        = Ok (Dumps (Records (slice data o (o + l))) trailer, 200))
  /\ get_epochs (Some xml) None None = Ok (Dumps (Records data) "", 200)
  /\ ((5 <= List.length data)%nat ->
      exists trailer,
        get_epochs (Some xml) (Some "5") (Some "0")
        = Ok (Dumps (Records (firstn 5 data)) trailer, 200)
        /\ List.length (firstn 5 data) = 5%nat).
Proof.
  intros Hp.
  assert (Hgen : forall limit offset l o,
      query_int limit (Z.of_nat (List.length data)) = Some l ->
      query_int offset 0 = Some o ->
      exists trailer,
        get_epochs (Some xml) limit offset
        = Ok (Dumps (Records (slice data o (o + l))) trailer, 200)).
  { intros limit offset l o Hl Ho. unfold get_epochs.
    rewrite Hp. cbn [bind]. rewrite Hl, Ho.
    destruct ((l =? _) && (o =? 0)) eqn:E.
    - apply andb_prop in E as [E1 E2].
      apply Z.eqb_eq in E1, E2. subst.
      rewrite Z.add_0_l, slice_all. eauto.
    - eauto. }
  repeat split; auto.
  - unfold get_epochs. rewrite Hp. cbn [bind query_int].
    now rewrite !Z.eqb_refl.
  - intros H5.
    destruct (Hgen (Some "5") (Some "0") 5 0 eq_refl eq_refl) as [trailer Ht].
    exists trailer. rewrite Ht.
    rewrite Z.add_0_l, slice_prefix by lia.
    split; [reflexivity|].
    apply firstn_length_le. exact H5.
Qed.

Lemma get_epochs_slice_witness :
  exists trailer rs,
    get_epochs (Some five_sample_feed) (Some "5") (Some "0")
    = Ok (Dumps (Records rs) trailer, 200)
    /\ List.length rs = 5%nat.
Proof.
  destruct (parse_xml_data five_sample_feed) as [data|e] eqn:E;
    [|vm_compute in E; discriminate E].
  destruct (get_epochs_slice five_sample_feed data E) as [_ [_ H]].
  destruct H as [trailer [H1 H2]].
  - vm_compute in E. injection E as <-. simpl. lia.
  - exists trailer, (firstn 5 data). split; assumption.
Defined.

(** C8: when the feed is fetched and parsed, [/epochs/<epoch>] answers
    404 exactly when no record has that [EPOCH], and otherwise answers 200
    with a record of the list that has it (the first one). *)
Theorem get_epoch_found xml data epoch :
  parse_xml_data xml = Ok data ->
  exists resp,
    get_epoch (Some xml) epoch = Ok resp
    /\ (status resp = 404
        <-> forall r, In r data -> StateVector.EPOCH r <> VStr epoch)
    /\ ((exists r, In r data /\ StateVector.EPOCH r = VStr epoch) ->
        exists r, In r data /\ StateVector.EPOCH r = VStr epoch
                  /\ resp = (Dumps (OneRecord r) "", 200)).
Proof.
  intros Hp. unfold get_epoch. rewrite Hp. cbn [bind].
  destruct (find (epoch_is epoch) data) as [r|] eqn:F.
  - apply find_some in F as [Hin Hr]. apply epoch_is_spec in Hr.
    eexists. split; [reflexivity|]. split.
    + split; [discriminate|]. intros H. now apply H in Hin.
    + intros _. eauto.
  - eexists. split; [reflexivity|]. split.
    + split; [|reflexivity]. intros _ r Hin Hr.
      apply epoch_is_spec in Hr.
      now rewrite (find_none _ _ F r Hin) in Hr.
    + intros [r [Hin Hr]]. apply epoch_is_spec in Hr.
      now rewrite (find_none _ _ F r Hin) in Hr.
Qed.

Lemma get_epoch_found_witness :
  exists resp,
    get_epoch (Some sample_xml_data) "2024-045T12:05:00.000Z" = Ok resp
    /\ status resp = 200.
Proof.
  destruct (parse_xml_data sample_xml_data) as [data|e] eqn:E;
    [|vm_compute in E; discriminate E].
  destruct (get_epoch_found sample_xml_data data "2024-045T12:05:00.000Z" E)
    as [resp [H1 [_ H3]]].
  exists resp. split; [exact H1|].
  destruct H3 as [r [_ [_ ->]]]; [|reflexivity].
  vm_compute in E. injection E as <-.
  eexists. split; [right; left; reflexivity|reflexivity].
Defined.

(** C10: for the record the handler of [/epochs/<epoch>/speed] finds,
    the speed it computes in line and serves is the result of
    [calculate_speed] on that record's velocity components, and an
    exception of [calculate_speed] is the exception of the handler. *)
Theorem get_epoch_speed_calculate_speed xml data epoch r :
  parse_xml_data xml = Ok data ->
  find (epoch_is epoch) data = Some r ->
  get_epoch_speed (Some xml) epoch
  = (speed <- calculate_speed (StateVector.X_DOT r) (StateVector.Y_DOT r)
                              (StateVector.Z_DOT r) ;;
     Ok (Dumps (Speed speed) "", 200)).
Proof.
  intros Hp Hf. unfold get_epoch_speed. rewrite Hp. cbn [bind].
  rewrite Hf. unfold inline_speed, calculate_speed. reflexivity.
Qed.

Lemma get_epoch_speed_calculate_speed_witness :
  get_epoch_speed (Some sample_xml_data) "2024-045T12:05:00.000Z"
  = (speed <- calculate_speed 1.5 2.5 3.5 ;; Ok (Dumps (Speed speed) "", 200)).
Proof.
  destruct (parse_xml_data sample_xml_data) as [data|e] eqn:E;
    [|vm_compute in E; discriminate E].
  destruct (find (epoch_is "2024-045T12:05:00.000Z") data) as [r|] eqn:F.
  - rewrite (get_epoch_speed_calculate_speed _ _ _ _ E F).
    vm_compute in E. injection E as <-.
    vm_compute in F. injection F as <-. reflexivity.
  - vm_compute in E. injection E as <-. vm_compute in F. discriminate F.
Defined.

Example get_epoch_speed_sample :
  get_epoch_speed (Some sample_xml_data) "2024-045T12:04:00.000Z"
  = Ok (Dumps (Speed 3.7416573867739413) "", 200).
Proof. vm_compute. reflexivity. Qed.

Example get_epoch_missing :
  get_epoch (Some sample_xml_data) "2024-045T12:06:00.000Z"
  = Ok (Plain "Epoch not found.", 404).
Proof. vm_compute. reflexivity. Qed.

End HandlerFacts.

(** * Further properties of the program *)

(** ** What the parser accepts *)

Section ParserShape.

Import Xmltodict.

Lemma for_each_ok_inv {A B} (f : A -> result B) l : forall rs,
  for_each f l = Ok rs -> Forall2 (fun x r => f x = Ok r) l rs.
Proof.
  induction l as [|x l IH]; simpl; intros rs H.
  - injection H as <-. constructor.
  - destruct (f x) as [y|] eqn:Hx; simpl in H; [|discriminate].
    destruct (for_each f l) as [ys|]; simpl in H; [|discriminate].
    injection H as <-. constructor; auto.
Qed.

Lemma getitem_list_raise v k : is_list v = true -> getitem v k = Raise TypeError.
Proof. destruct v; try discriminate. reflexivity. Qed.

Lemma push_all_some l : forall d, exists d', push_all (Some d) l = Some d'.
Proof.
  unfold push_all. induction l as [|kv l IH]; intros d; simpl; eauto.
Qed.

Lemma convert_unfold t a x cs :
  convert (Element t a x cs)
  = match push_all (attr_items a) (map (fun c => (tag c, convert c)) cs), x with
    | Some d, EmptyString => VDict d
    | Some d, _ => VDict (push_data (Some d) "#text" (VStr x))
    | None, EmptyString => VNone
    | None, _ => VStr x
    end.
Proof. reflexivity. Qed.

(** An element becomes a dict exactly when it has an attribute or a
    child. *)
Lemma convert_is_dict e : is_dict (convert e) = has_content e.
Proof.
  destruct e as [t a x cs]. rewrite convert_unfold.
  unfold has_content. cbn [attrs children].
  destruct (attr_items a) as [d|] eqn:Ea.
  - destruct a as [|kv a]; [discriminate|].
    destruct (push_all_some (map (fun c => (tag c, convert c)) cs) d) as [d' ->].
    now destruct x.
  - destruct a as [|kv a]; [|discriminate].
    destruct cs as [|c cs].
    + now destruct x.
    + unfold push_all. cbn [map fold_left fst snd].
      destruct (push_all_some (map (fun c0 => (tag c0, convert c0)) cs)
                  (push_data None (tag c) (convert c))) as [d' Hd'].
      unfold push_all in Hd'. rewrite Hd'. now destruct x.
Qed.

(** What a subscript by a tag finds in the object of an element. *)
Lemma getitem_convert e k :
  tag_key k = true ->
  getitem (convert e) k
  = match grouped (map convert (children_named e k)) with
    | Some v => Ok v
    | None => Raise (if has_content e then KeyError else TypeError)
    end.
Proof.
  intros Hk. pose proof (convert_children e k Hk) as H.
  rewrite <- convert_is_dict. unfold getitem.
  destruct (convert e); simpl; rewrite <- H; auto.
Qed.

(** A subscript that succeeds and whose result can be subscripted again
    went through the only child with that tag. *)
Lemma getitem_twice e k v k' :
  tag_key k = true ->
  getitem (convert e) k = Ok v ->
  is_ok (getitem v k') = true ->
  exists c, only_child e k = Some c /\ v = convert c.
Proof.
  intros Hk H H'. rewrite getitem_convert in H by auto.
  unfold only_child.
  destruct (children_named e k) as [|c [|c' cs]]; simpl in H.
  - discriminate.
  - injection H as <-. eauto.
  - injection H as <-. discriminate.
Qed.

(** The path to the [data] element, read backwards: when the chain of
    subscripts succeeds, the document has that element. *)
Lemma data_entry_ok root k v :
  data_entry (parse root) k = Ok v ->
  exists d, data_element root = Some d /\ getitem (convert d) k = Ok v.
Proof.
  unfold data_entry, parse, data_element. unfold getitem at 1.
  cbn [dict_get]. rewrite String.eqb_sym.
  destruct (String.eqb (tag root) "ndm"); [|discriminate].
  cbn [bind].
  destruct (getitem (convert root) "oem") as [oem|] eqn:H1; [|discriminate].
  cbn [bind].
  destruct (getitem oem "body") as [body|] eqn:H2; [|discriminate].
  cbn [bind].
  destruct (getitem body "segment") as [segment|] eqn:H3; [|discriminate].
  cbn [bind].
  destruct (getitem segment "data") as [data|] eqn:H4; [|discriminate].
  cbn [bind]. intros H5.
  destruct (getitem_twice root "oem" oem "body" eq_refl H1) as [c1 [E1 ->]];
    [now rewrite H2|].
  destruct (getitem_twice c1 "body" body "segment" eq_refl H2) as [c2 [E2 ->]];
    [now rewrite H3|].
  destruct (getitem_twice c2 "segment" segment "data" eq_refl H3) as [c3 [E3 ->]];
    [now rewrite H4|].
  destruct (getitem_twice c3 "data" data k eq_refl H4) as [c4 [E4 ->]];
    [now rewrite H5|].
  rewrite E1, E2, E3, E4. eauto.
Qed.

(** The loop over the object of a single element fails at once. *)
Lemma loop_over_one sv :
  (ts <- iter (convert sv) ;; for_each t_data ts) = Raise TypeError.
Proof.
  pose proof (convert_not_list sv) as Hl.
  destruct (convert sv) as [|x|kvs|l] eqn:E; simpl; auto; try discriminate.
  - apply convert_str_nonempty in E. destruct x; [contradiction|reflexivity].
  - apply convert_dict_nonempty in E. destruct kvs; [contradiction|reflexivity].
Qed.

(** X1: [parse_xml_data] returns records only for a document that has the
    [data] element on the path [ndm/oem/body/segment] with two
    [stateVector] elements or more; it then returns one record per element,
    in order, each the result of the loop body on that element.  No call
    returns an empty list or a single record. *)
Theorem parse_xml_data_ok_shape root rs :
  parse_xml_data root = Ok rs ->
  (2 <= List.length rs)%nat
  /\ exists d svs,
       data_element root = Some d
       /\ children_named d "stateVector" = svs
       /\ List.length svs = List.length rs
       /\ Forall2 (fun sv r => t_data (convert sv) = Ok r) svs rs.
Proof.
  unfold parse_xml_data.
  destruct (data_entry (parse root) "stateVector") as [epochs|] eqn:H;
    [|discriminate].
  cbn [bind]. intros Hloop.
  destruct (data_entry_ok _ _ _ H) as [d [Hd Hg]].
  rewrite getitem_convert in Hg by reflexivity.
  destruct (children_named d "stateVector") as [|sv [|sv' svs]] eqn:Hsvs;
    simpl in Hg.
  - discriminate.
  - injection Hg as <-. rewrite loop_over_one in Hloop. discriminate.
  - injection Hg as <-. cbn [iter bind] in Hloop.
    change (convert sv :: convert sv' :: map convert svs)
      with (map convert (sv :: sv' :: svs)) in Hloop.
    apply for_each_ok_inv in Hloop.
    remember (sv :: sv' :: svs) as l eqn:El.
    assert (Hl : (2 <= List.length l)%nat) by (subst l; simpl; lia).
    assert (Hf : Forall2 (fun sv0 r => t_data (convert sv0) = Ok r) l rs).
    { clear -Hloop. revert rs Hloop.
      induction l as [|x l IH]; intros rs H; inversion H; subst;
        constructor; auto. }
    pose proof (Forall2_length Hf) as Hlen. split.
    + rewrite <- Hlen. exact Hl.
    + exists d, l. repeat split; auto.
Qed.

Lemma parse_xml_data_ok_shape_witness :
  exists rs, parse_xml_data sample_xml_data = Ok rs /\ (2 <= List.length rs)%nat.
Proof.
  destruct (parse_xml_data sample_xml_data) as [rs|e] eqn:E;
    [|vm_compute in E; discriminate E].
  exists rs. split; [reflexivity|].
  exact (proj1 (parse_xml_data_ok_shape sample_xml_data rs E)).
Defined.

(** X2: a document whose [data] element holds no [stateVector] makes
    [parse_xml_data] raise: [KeyError] when the element has other content,
    [TypeError] when it is empty. *)
Theorem parse_xml_data_no_state_vector root d :
  data_element root = Some d ->
  children_named d "stateVector" = [] ->
  parse_xml_data root = Raise (if has_content d then KeyError else TypeError).
Proof.
  intros Hd Hsv. unfold parse_xml_data.
  rewrite (data_entry_data_element _ _ _ Hd).
  rewrite getitem_convert by reflexivity. now rewrite Hsv.
Qed.

Lemma parse_xml_data_no_state_vector_witness :
  parse_xml_data (oem_document [Element "COMMENT" [] "no samples" []])
  = Raise KeyError.
Proof.
  exact (parse_xml_data_no_state_vector
           (oem_document [Element "COMMENT" [] "no samples" []])
           (Element "data" [] "" [Element "COMMENT" [] "no samples" []])
           eq_refl eq_refl).
Defined.

(** ** The read paths of comments, header and metadata *)

(** X3: [/comment] on a document with the [data] element: with no
    [COMMENT] the handler raises; a single comment comes back as a
    one-element list, even an empty one; several come back in order with
    the empty ones left out. *)
Theorem get_comments_cases root d :
  data_element root = Some d ->
  get_comments (Some root)
  = match children_named d "COMMENT" with
    | [] => Raise (if has_content d then KeyError else TypeError)
    | [c] => Ok (jsonify (Comments [convert c]))
    | cs => Ok (jsonify (Comments (filter truthy (map convert cs))))
    end.
Proof.
  intros Hd. unfold get_comments.
  rewrite (data_entry_data_element _ _ _ Hd).
  rewrite getitem_convert by reflexivity.
  destruct (children_named d "COMMENT") as [|c [|c' cs]]; simpl; auto.
  pose proof (convert_not_list c) as Hl.
  now destruct (convert c).
Qed.

Lemma get_comments_cases_witness :
  get_comments (Some commented_feed)
  = Ok (jsonify (Comments [VStr "Units are in kg and m^2"; VStr "MASS=471702.00"])).
Proof.
  exact (get_comments_cases commented_feed commented_data eq_refl).
Defined.

(** What Flask makes of the object of an element. *)
Lemma make_response_convert e : make_response (convert e) = served e.
Proof.
  unfold served. pose proof (convert_is_dict e) as H.
  destruct (has_content e) eqn:Hc.
  - now destruct (convert e).
  - destruct e as [t a x cs]. unfold has_content in Hc. cbn [attrs children] in Hc.
    destruct a as [|kv a]; [|discriminate].
    destruct cs as [|c cs]; [|discriminate].
    rewrite convert_leaf. cbn [text]. now destruct x.
Qed.

(** X4: [/header] and [/metadata] answer from the only [header] element
    of [oem], and from the only [metadata] element of [segment]: with
    200 and its object when it has an attribute or a child, with 200 and
    its text when it has text alone, and with the [TypeError] of a view
    that returned [None] when it is empty; without that element they
    raise [KeyError]. *)
Theorem get_header_metadata root oem :
  String.eqb (tag root) "ndm" = true ->
  only_child root "oem" = Some oem ->
  (forall header,
      only_child oem "header" = Some header ->
      get_header (Some root) = served header)
  /\ (children_named oem "header" = [] -> has_content oem = true ->
      get_header (Some root) = Raise KeyError)
  /\ (forall bd segment,
         only_child oem "body" = Some bd ->
         only_child bd "segment" = Some segment ->
         (forall metadata,
             only_child segment "metadata" = Some metadata ->
             get_metadata (Some root) = served metadata)
         /\ (children_named segment "metadata" = [] ->
             has_content segment = true ->
             get_metadata (Some root) = Raise KeyError)).
Proof.
  intros Hroot Hoem.
  assert (Hndm : getitem (parse root) "ndm" = Ok (convert root)).
  { unfold parse, getitem. cbn [dict_get].
    now rewrite String.eqb_sym, Hroot. }
  assert (H1 : getitem (convert root) "oem" = Ok (convert oem))
    by now apply getitem_only_child.
  split; [|split].
  - intros header Hh. unfold get_header.
    rewrite Hndm. cbn [bind]. rewrite H1. cbn [bind].
    rewrite (getitem_only_child oem "header" _ eq_refl Hh). cbn [bind].
    apply make_response_convert.
  - intros Hh Hc. unfold get_header.
    rewrite Hndm. cbn [bind]. rewrite H1. cbn [bind].
    rewrite getitem_convert by reflexivity. now rewrite Hh, Hc.
  - intros bd segment Hb Hs.
    assert (H4 : get_metadata (Some root)
                 = (metadata <- getitem (convert segment) "metadata" ;;
                    make_response metadata)).
    { unfold get_metadata.
      rewrite Hndm. cbn [bind]. rewrite H1. cbn [bind].
      rewrite (getitem_only_child oem "body" _ eq_refl Hb). cbn [bind].
      now rewrite (getitem_only_child bd "segment" _ eq_refl Hs). }
    rewrite H4. split.
    + intros metadata Hm.
      rewrite (getitem_only_child segment "metadata" _ eq_refl Hm). cbn [bind].
      apply make_response_convert.
    + intros Hm Hc. rewrite getitem_convert by reflexivity. now rewrite Hm, Hc.
Qed.

Lemma get_header_metadata_witness :
  get_header (Some commented_feed)
  = Ok (jsonify (Object (VDict [("CREATION_DATE", VStr "2024-045T12:00:00.000Z");
                                ("ORIGINATOR", VStr "JSC")])))
  /\ get_header (Some empty_header_feed) = Raise TypeError
  /\ get_metadata (Some sample_xml_data) = Raise KeyError.
Proof.
  split; [|split].
  - exact (proj1 (get_header_metadata commented_feed commented_oem
                    eq_refl eq_refl) _ eq_refl).
  - exact (proj1 (get_header_metadata empty_header_feed empty_header_oem
                    eq_refl eq_refl) _ eq_refl).
  - destruct (proj2 (proj2 (get_header_metadata sample_xml_data _
                              eq_refl eq_refl)) _ _ eq_refl eq_refl) as [_ H].
    exact (H eq_refl eq_refl).
Defined.

End ParserShape.

(** ** More on the speed *)

Section SpeedFacts.

Lemma SFsqrt_nonneg f : SFnonneg f = true -> SFnonneg (SF64sqrt f) = true.
Proof.
  destruct f as [s|s| |s m e]; simpl; auto; intros H;
    apply negb_true_iff in H; subst; auto.
  destruct (SFsqrt_core_binary _ _ _ _) as [[mz ez] lz].
  apply binary_round_aux_nonneg.
Qed.

Lemma SFltb_zero_nonneg f :
  SFnonneg f = true -> SFltb f (S754_zero false) = false.
Proof.
  destruct f as [s|s| |s m e]; simpl; intros H;
    try apply negb_true_iff in H; subst; reflexivity.
Qed.

Lemma SFmul_self_nan f : SFis_nan (SF64mul f f) = SFis_nan f.
Proof.
  destruct f as [s|s| |s m e]; try reflexivity.
  apply binary_round_aux_not_nan. lia.
Qed.

Lemma SFadd_nan f g :
  SFnonneg f = true -> SFnonneg g = true ->
  SFis_nan (SF64add f g) = SFis_nan f || SFis_nan g.
Proof.
  destruct f as [s|s| |s m e], g as [s'|s'| |s' m' e']; simpl SFnonneg;
    intros Hf Hg;
    try apply negb_true_iff in Hf; try apply negb_true_iff in Hg;
    subst; try reflexivity.
  unfold SF64add, SFadd, cond_Zopp, binary_normalize.
  simpl Z.add. unfold binary_round.
  destruct (shl_align _ _ _) as [mz ez].
  apply binary_round_aux_not_nan. lia.
Qed.

Lemma SFadd_infinity f g :
  SFnonneg f = true -> SFnonneg g = true ->
  SFis_nan f = false -> SFis_nan g = false ->
  (match f with S754_infinity _ => true | _ => false end
   || match g with S754_infinity _ => true | _ => false end) = true ->
  SF64add f g = S754_infinity false.
Proof.
  destruct f as [s|s| |s m e], g as [s'|s'| |s' m' e']; simpl;
    intros Hf Hg Nf Ng H;
    try apply negb_true_iff in Hf; try apply negb_true_iff in Hg;
    subst; try discriminate; reflexivity.
Qed.

End SpeedFacts.

Section SpeedEdges.

Local Open Scope float_scope.

Lemma is_nan_eq x : is_nan x = true -> x = nan.
Proof.
  rewrite is_nan_spec. intros H. apply Prim2SF_inj.
  change (Prim2SF nan) with S754_nan. now destruct (Prim2SF x).
Qed.

Lemma is_nan_square x : is_nan (x * x) = is_nan x.
Proof. rewrite !is_nan_spec, mul_spec. apply SFmul_self_nan. Qed.

Lemma is_nan_add x y :
  SFnonneg (Prim2SF x) = true -> SFnonneg (Prim2SF y) = true ->
  is_nan (x + y) = is_nan x || is_nan y.
Proof. intros Hx Hy. rewrite !is_nan_spec, add_spec. now apply SFadd_nan. Qed.

Lemma is_nan_sum_squares x y z :
  is_nan (x * x + y * y + z * z) = is_nan x || is_nan y || is_nan z.
Proof.
  rewrite !is_nan_add, !is_nan_square; auto using square_nonneg, add_nonneg.
Qed.

(** X5: a speed that [calculate_speed] returns is never negative. *)
Theorem calculate_speed_not_negative vx vy vz speed :
  calculate_speed vx vy vz = Ok speed -> (speed <? 0) = false.
Proof.
  rewrite calculate_speed_cases.
  destruct (_ || _); [discriminate|]. intros [= <-].
  rewrite ltb_spec, sqrt_spec.
  change (Prim2SF 0) with (S754_zero false).
  apply SFltb_zero_nonneg, SFsqrt_nonneg.
  auto using square_nonneg, add_nonneg.
Qed.

Lemma calculate_speed_not_negative_witness :
  (3.7416573867739413 <? 0) = false.
Proof.
  apply (calculate_speed_not_negative 1 2 3). reflexivity.
Defined.

(** X6: with a NaN among the components, [calculate_speed] returns NaN
    unless the square of another component overflows; it does not raise
    the domain error of [math.sqrt]. *)
Theorem calculate_speed_nan vx vy vz :
  is_nan vx || is_nan vy || is_nan vz = true ->
  calculate_speed vx vy vz
  = if square_overflows vx || square_overflows vy || square_overflows vz
    then Raise OverflowError
    else Ok nan.
Proof.
  intros H. rewrite calculate_speed_cases.
  destruct (square_overflows vx || square_overflows vy || square_overflows vz);
    auto.
  f_equal. apply is_nan_eq.
  rewrite sqrt_sum_squares_not_nan, is_nan_sum_squares. exact H.
Qed.

Lemma calculate_speed_nan_witness : calculate_speed 1 nan 3 = Ok nan.
Proof.
  apply (calculate_speed_nan 1 nan 3). reflexivity.
Defined.

Lemma add_infinity x y :
  SFnonneg (Prim2SF x) = true -> SFnonneg (Prim2SF y) = true ->
  is_nan x = false -> is_nan y = false ->
  is_infinity x || is_infinity y = true ->
  x + y = infinity.
Proof.
  rewrite !is_nan_spec, !is_infinity_spec. intros Hx Hy Nx Ny H.
  apply Prim2SF_inj. rewrite add_spec.
  change (Prim2SF infinity) with (S754_infinity false).
  apply SFadd_infinity; auto.
Qed.

(** A sum of two squares or sums of squares, none NaN, one infinite. *)
Lemma add_squares_infinity x y :
  SFnonneg (Prim2SF x) = true -> SFnonneg (Prim2SF y) = true ->
  is_nan x = false -> is_nan y = false ->
  x = infinity \/ y = infinity ->
  x + y = infinity.
Proof.
  intros Hx Hy Nx Ny H. apply add_infinity; auto.
  destruct H as [-> | ->]; [reflexivity|].
  apply orb_true_intro. now right.
Qed.

Lemma sqrt_infinity : sqrt infinity = infinity.
Proof. reflexivity. Qed.

(** X7: with an infinite component and no NaN, [calculate_speed] returns
    [inf] unless the square of a finite component overflows: an infinite
    velocity is no error, while a large finite one is. *)
Theorem calculate_speed_infinity vx vy vz :
  is_infinity vx || is_infinity vy || is_infinity vz = true ->
  is_nan vx || is_nan vy || is_nan vz = false ->
  calculate_speed vx vy vz
  = if square_overflows vx || square_overflows vy || square_overflows vz
    then Raise OverflowError
    else Ok infinity.
Proof.
  intros Hi Hn. rewrite calculate_speed_cases.
  destruct (square_overflows vx || square_overflows vy || square_overflows vz);
    auto.
  apply orb_false_elim in Hn as [Hn Hnz]. apply orb_false_elim in Hn as [Hnx Hny].
  assert (Nx : is_nan (vx * vx) = false) by now rewrite is_nan_square.
  assert (Ny : is_nan (vy * vy) = false) by now rewrite is_nan_square.
  assert (Nz : is_nan (vz * vz) = false) by now rewrite is_nan_square.
  assert (Nxy : is_nan (vx * vx + vy * vy) = false)
    by (rewrite is_nan_add, Nx, Ny; auto using square_nonneg).
  assert (Hsum : vx * vx + vy * vy + vz * vz = infinity).
  { destruct (is_infinity vx) eqn:Ix; [|destruct (is_infinity vy) eqn:Iy].
    - apply add_squares_infinity; auto using square_nonneg, add_nonneg.
      left. apply add_squares_infinity; auto using square_nonneg.
      left. now apply mul_infinity.
    - apply add_squares_infinity; auto using square_nonneg, add_nonneg.
      left. apply add_squares_infinity; auto using square_nonneg.
      right. now apply mul_infinity.
    - simpl in Hi.
      apply add_squares_infinity; auto using square_nonneg, add_nonneg.
      right. now apply mul_infinity. }
  now rewrite Hsum, sqrt_infinity.
Qed.

Lemma calculate_speed_infinity_witness :
  calculate_speed 1 neg_infinity 3 = Ok infinity.
Proof.
  apply (calculate_speed_infinity 1 neg_infinity 3); reflexivity.
Defined.

End SpeedEdges.

(** ** More on the nearest-epoch scan *)

Section SelectorEdges.

Import PyTime.

Lemma closest_scan_in now data : forall c md r,
  closest_scan now data c md = Ok (Some r) -> c = Some r \/ In r data.
Proof.
  induction data as [|t rest IH]; intros c md r H; step_scan.
  - left. now injection H.
  - destruct (strptime (StateVector.EPOCH t)) as [et|]; [|discriminate].
    step_scan.
    destruct (now - et <? - tolerance).
    + left. now injection H.
    + destruct (Z.abs (now - et) <? md); apply IH in H.
      * destruct H as [[= <-]|H]; right; [now left|now right].
      * destruct H as [H|H]; [now left|right; now right].
Qed.

(** X8: the record [get_current_info] returns is one of the records it
    was given, and the speed beside it is [calculate_speed] of that record's
    velocity. *)
Theorem get_current_info_member now data r speed :
  get_current_info now data = Ok (r, speed) ->
  In r data
  /\ calculate_speed (StateVector.X_DOT r) (StateVector.Y_DOT r)
                     (StateVector.Z_DOT r) = Ok speed.
Proof.
  unfold get_current_info.
  destruct (closest_scan now data None timedelta_max) as [[c|]|] eqn:E;
    cbn [bind]; try discriminate.
  destruct (calculate_speed _ _ _) as [s|] eqn:Hs; cbn [bind]; [|discriminate].
  intros [= -> ->]. split; auto.
  apply closest_scan_in in E. destruct E as [E|E]; [discriminate|exact E].
Qed.

Lemma get_current_info_member_witness :
  In (record_at "2024-045T12:00:00.000Z") sparse_feed.
Proof.
  apply (get_current_info_member ten_past_noon sparse_feed _ 0%float).
  reflexivity.
Defined.

Lemma get_current_info_within_witness :
  exists t,
    strptime (VStr "2024-045T12:00:00.000Z") = Ok t
    /\ - tolerance <= ten_past_noon - t.
Proof.
  apply (get_current_info_within ten_past_noon sparse_feed
           (record_at "2024-045T12:00:00.000Z") 0%float).
  reflexivity.
Defined.

Lemma closest_scan_cut now t et rest pre : forall c md,
  strptime (StateVector.EPOCH t) = Ok et ->
  now - et < - tolerance ->
  closest_scan now (pre ++ t :: rest) c md = closest_scan now pre c md.
Proof.
  intros c md Ht Hfar. revert c md.
  induction pre as [|p pre IH]; intros c md; cbn [app]; step_scan.
  - rewrite Ht. step_scan.
    apply Z.ltb_lt in Hfar. now rewrite Hfar.
  - destruct (strptime (StateVector.EPOCH p)) as [ep|]; auto.
    step_scan.
    destruct (now - ep <? - tolerance); auto.
    destruct (Z.abs (now - ep) <? md); apply IH.
Qed.

(** X10: nothing after the first record more than 4 minutes 1
    millisecond ahead of [now] has any effect: the call returns what it
    returns on the records before it.  Records after it are not even read,
    so a malformed [EPOCH] there goes unnoticed. *)
Theorem get_current_info_cut now pre t et rest :
  strptime (StateVector.EPOCH t) = Ok et ->
  now - et < - tolerance ->
  get_current_info now (pre ++ t :: rest) = get_current_info now pre.
Proof.
  intros Ht Hfar. unfold get_current_info.
  now rewrite (closest_scan_cut now t et rest pre _ _ Ht Hfar).
Qed.

Lemma get_current_info_cut_witness :
  get_current_info ten_past_noon feed_with_far_record
  = Ok (record_at "2024-045T12:08:00.000Z", 0%float).
Proof.
  pose (et := match strptime_str "2024-045T13:00:00.000Z" with
              | Some t => t
              | None => 0
              end).
  change feed_with_far_record
    with ([ record_at "2024-045T12:00:00.000Z";
            record_at "2024-045T12:08:00.000Z" ]
          ++ record_at "2024-045T13:00:00.000Z" :: [record_at "soon"]).
  rewrite (get_current_info_cut ten_past_noon _ _ et); reflexivity.
Defined.

Lemma closest_scan_raise now t e rest pre : forall c md,
  walked_past now pre = true ->
  strptime (StateVector.EPOCH t) = Raise e ->
  closest_scan now (pre ++ t :: rest) c md = Raise e.
Proof.
  intros c md Hpre Ht. revert c md.
  induction pre as [|p pre IH]; intros c md; cbn [app]; step_scan.
  - now rewrite Ht.
  - unfold walked_past in Hpre. cbn [forallb] in Hpre.
    apply andb_prop in Hpre as [Hp Hpre].
    destruct (strptime (StateVector.EPOCH p)) as [ep|]; [|discriminate].
    step_scan. apply negb_true_iff in Hp. rewrite Hp.
    destruct (Z.abs (now - ep) <? md); now apply IH.
Qed.

(** X11: an [EPOCH] that [strptime] refuses, in a record the loop
    reaches (every record before it reads as a time stamp not beyond the
    tolerance), makes [get_current_info] raise that exception. *)
Theorem get_current_info_bad_epoch now pre t e rest :
  walked_past now pre = true ->
  strptime (StateVector.EPOCH t) = Raise e ->
  get_current_info now (pre ++ t :: rest) = Raise e.
Proof.
  intros Hpre Ht. unfold get_current_info.
  now rewrite (closest_scan_raise now t e rest pre _ _ Hpre Ht).
Qed.

Lemma get_current_info_bad_epoch_witness :
  get_current_info ten_past_noon
    [ record_at "2024-045T12:00:00.000Z"; record_at "soon";
      record_at "2024-045T12:08:00.000Z" ]
  = Raise ValueError.
Proof.
  apply (get_current_info_bad_epoch ten_past_noon
           [record_at "2024-045T12:00:00.000Z"] (record_at "soon") ValueError
           [record_at "2024-045T12:08:00.000Z"]);
    reflexivity.
Defined.

Lemma closest_scan_keeps now data : forall b md r,
  md <= 0 -> closest_scan now data (Some b) md = Ok (Some r) -> r = b.
Proof.
  induction data as [|t rest IH]; intros b md r Hmd H; step_scan.
  - now injection H.
  - destruct (strptime (StateVector.EPOCH t)) as [et|]; [|discriminate].
    step_scan.
    destruct (now - et <? - tolerance); [now injection H|].
    replace (Z.abs (now - et) <? md) with false in H
      by (symmetry; apply Z.ltb_ge; lia).
    eauto.
Qed.

(** X12: when the first record is at or after [now], a call that
    returns returns that first record, whatever follows it: once the loop
    holds a record that is not in the past it never replaces it. *)
Theorem get_current_info_first_ahead now t et rest r speed :
  is_datetime now = true ->
  strptime (StateVector.EPOCH t) = Ok et ->
  now <= et ->
  get_current_info now (t :: rest) = Ok (r, speed) ->
  r = t.
Proof.
  intros Hnow Ht Hle. unfold get_current_info. step_scan.
  rewrite Ht. step_scan.
  pose proof (strptime_range _ _ Ht) as Het.
  unfold is_datetime in Hnow. apply andb_prop in Hnow as [Hn1 Hn2].
  apply Z.leb_le in Hn1. apply Z.ltb_lt in Hn2.
  destruct (now - et <? - tolerance); [discriminate|].
  replace (Z.abs (now - et) <? timedelta_max) with true
    by (symmetry; apply Z.ltb_lt; unfold timedelta_max, datetime_end in *; lia).
  destruct (closest_scan now rest _ (now - et)) as [[c|]|] eqn:E;
    cbn [bind]; try discriminate.
  destruct (calculate_speed (StateVector.X_DOT c) (StateVector.Y_DOT c)
                            (StateVector.Z_DOT c));
    cbn [bind]; [|discriminate].
  intros [= -> _].
  apply closest_scan_keeps in E; [auto|lia].
Qed.

Lemma get_current_info_first_ahead_witness :
  record_at "2024-045T12:12:00.000Z" = record_at "2024-045T12:12:00.000Z".
Proof.
  pose (et := match strptime_str "2024-045T12:12:00.000Z" with
              | Some t => t
              | None => 0
              end).
  apply (get_current_info_first_ahead ten_past_noon
           (record_at "2024-045T12:12:00.000Z") et
           [record_at "2024-045T12:10:30.000Z"] _ 0%float);
    try reflexivity.
  vm_compute. discriminate.
Defined.

Lemma closest_scan_past now rest : forall (b : state_vector) tb,
  strptime (StateVector.EPOCH b) = Ok tb ->
  ascending_from tb rest = true ->
  (forall r t, In r rest -> strptime (StateVector.EPOCH r) = Ok t -> t <= now) ->
  tb <= now ->
  exists r tr,
    closest_scan now rest (Some b) (now - tb) = Ok (Some r)
    /\ (r = b \/ In r rest)
    /\ strptime (StateVector.EPOCH r) = Ok tr
    /\ tb <= tr
    /\ forall r' t', In r' rest -> strptime (StateVector.EPOCH r') = Ok t' -> t' <= tr.
Proof.
  induction rest as [|t rest IH]; intros b tb Hb Hasc Hpast Hle; step_scan.
  - exists b, tb. repeat split; auto; try lia. intros r' t' [].
  - destruct (strptime (StateVector.EPOCH t)) as [et|] eqn:E; [|discriminate].
    step_scan. apply andb_prop in Hasc as [Hlo Hasc]. apply Z.leb_le in Hlo.
    assert (Het : et <= now) by (apply (Hpast t et); [now left|exact E]).
    assert (Hrest : forall r t0, In r rest ->
                                 strptime (StateVector.EPOCH r) = Ok t0 -> t0 <= now)
      by (intros r t0 Hin; apply Hpast; now right).
    replace (now - et <? - tolerance) with false
      by (symmetry; apply Z.ltb_ge; unfold tolerance; lia).
    destruct (Z.abs (now - et) <? now - tb) eqn:C.
    + apply Z.ltb_lt in C.
      destruct (IH t et E Hasc Hrest Het) as [r [tr [H1 [H2 [H3 [H4 H5]]]]]].
      exists r, tr. repeat split; auto; try lia.
      * destruct H2 as [->|H2]; right; [now left|now right].
      * intros r' t' [<-|Hin] Hr'; eauto.
        rewrite E in Hr'. injection Hr' as <-. exact H4.
    + apply Z.ltb_ge in C.
      assert (Heq : et = tb) by lia. subst et.
      destruct (IH b tb Hb Hasc Hrest Hle) as [r [tr [H1 [H2 [H3 [H4 H5]]]]]].
      exists r, tr. repeat split; auto.
      * destruct H2 as [->|H2]; [now left|right; now right].
      * intros r' t' [<-|Hin] Hr'; eauto.
        rewrite E in Hr'. injection Hr' as <-. exact H4.
Qed.

(** X13: on a non-empty chronological feed whose records are all at or
    before [now], [get_current_info] returns a record with the latest
    epoch, however long ago that was: there is no limit on the past side. *)
Theorem get_current_info_all_past now data :
  is_datetime now = true ->
  chronological data = true ->
  data <> [] ->
  (forall r t, In r data -> strptime (StateVector.EPOCH r) = Ok t -> t <= now) ->
  exists r tr,
    In r data
    /\ strptime (StateVector.EPOCH r) = Ok tr
    /\ (forall r' t', In r' data -> strptime (StateVector.EPOCH r') = Ok t' ->
                      t' <= tr)
    /\ get_current_info now data
       = (speed <- calculate_speed (StateVector.X_DOT r) (StateVector.Y_DOT r)
                                   (StateVector.Z_DOT r) ;;
          Ok (r, speed)).
Proof.
  intros Hnow Hasc Hne Hpast.
  destruct data as [|t rest]; [contradiction|].
  unfold chronological in Hasc. unfold get_current_info. step_scan.
  destruct (strptime (StateVector.EPOCH t)) as [et|] eqn:E; [|discriminate].
  step_scan. apply andb_prop in Hasc as [_ Hasc].
  pose proof (strptime_range _ _ E) as Het.
  unfold is_datetime in Hnow. apply andb_prop in Hnow as [Hn1 Hn2].
  apply Z.leb_le in Hn1. apply Z.ltb_lt in Hn2.
  assert (Hle : et <= now) by (apply (Hpast t et); [now left|exact E]).
  replace (now - et <? - tolerance) with false
    by (symmetry; apply Z.ltb_ge; unfold tolerance; lia).
  replace (Z.abs (now - et) <? timedelta_max) with true
    by (symmetry; apply Z.ltb_lt; unfold timedelta_max, datetime_end in *; lia).
  destruct (closest_scan_past now rest t et E Hasc) as [r [tr [H1 [H2 [H3 [H4 H5]]]]]];
    auto.
  { intros r t0 Hin. apply Hpast. now right. }
  exists r, tr. repeat split; auto.
  - destruct H2 as [->|H2]; [now left|now right].
  - intros r' t' [<-|Hin] Hr'; eauto.
    rewrite E in Hr'. injection Hr' as <-. exact H4.
  - rewrite H1. reflexivity.
Qed.

Lemma get_current_info_all_past_witness :
  exists r tr,
    In r [record_at "2024-045T12:00:00.000Z"; record_at "2024-045T12:04:00.000Z"]
    /\ strptime (StateVector.EPOCH r) = Ok tr
    /\ tr <= ten_past_noon.
Proof.
  destruct (get_current_info_all_past ten_past_noon
              [record_at "2024-045T12:00:00.000Z";
               record_at "2024-045T12:04:00.000Z"])
    as [r [tr [H1 [H2 _]]]].
  - reflexivity.
  - reflexivity.
  - discriminate.
  - intros r t [<-|[<-|[]]] H; vm_compute in H; injection H as <-;
      vm_compute; discriminate.
  - exists r, tr. repeat split; auto.
    destruct H1 as [<-|[<-|[]]]; vm_compute in H2; injection H2 as <-;
      vm_compute; discriminate.
Defined.

End SelectorEdges.

(** ** More on the geolocation *)

Section LocationEdges.

Variable to_geodetic : Z -> float -> float -> float -> float * float * float.
Variable reverse : float -> float -> result (option Location).

(** X14: [calculate_location] does not catch anything: an [EPOCH] that
    [strptime] refuses raises before the position is worked out, and an
    exception of the reverse geocoder comes out as it is. *)
Theorem calculate_location_raises data e :
  (strptime (StateVector.EPOCH data) = Raise e ->
   calculate_location to_geodetic reverse data = Raise e)
  /\ (forall epoch lat lon alt,
         strptime (StateVector.EPOCH data) = Ok epoch ->
         to_geodetic epoch (StateVector.X data) (StateVector.Y data)
                     (StateVector.Z data) = (lat, lon, alt) ->
         reverse lat lon = Raise e ->
         calculate_location to_geodetic reverse data = Raise e).
Proof.
  unfold calculate_location. split.
  - now intros ->.
  - intros epoch lat lon alt -> Hg Hr. cbn [bind]. now rewrite Hg, Hr.
Qed.

(** X15: when [calculate_location] returns, the coordinates are those of
    the frame transform at the instant of the record, and the address is
    the text of the location the geocoder found at these coordinates, or
    [Address not found] when it found none. *)
Theorem calculate_location_ok data lat lon alt geo :
  calculate_location to_geodetic reverse data = Ok (lat, lon, alt, geo) ->
  exists epoch location,
    strptime (StateVector.EPOCH data) = Ok epoch
    /\ to_geodetic epoch (StateVector.X data) (StateVector.Y data)
                   (StateVector.Z data) = (lat, lon, alt)
    /\ reverse lat lon = Ok location
    /\ geo = match location with
             | Some l => address l
             | None => "Address not found"
             end.
Proof.
  unfold calculate_location.
  destruct (strptime (StateVector.EPOCH data)) as [epoch|]; [|discriminate].
  cbn [bind].
  destruct (to_geodetic epoch _ _ _) as [[lat' lon'] alt'] eqn:Hg.
  destruct (reverse lat' lon') as [location|] eqn:Hr; [|discriminate].
  cbn [bind]. intros [= <- <- <- <-].
  exists epoch, location. auto.
Qed.

End LocationEdges.

Lemma calculate_location_raises_witness :
  calculate_location position_unchanged nothing_found (record_at "soon")
  = Raise ValueError
  /\ calculate_location position_unchanged service_down
       (record_at "2024-045T12:00:00.000Z")
     = Raise ValueError.
Proof.
  split.
  - apply (proj1 (calculate_location_raises position_unchanged nothing_found
                    (record_at "soon") ValueError)).
    reflexivity.
  - pose (epoch := match PyTime.strptime_str "2024-045T12:00:00.000Z" with
                   | Some t => t
                   | None => 0
                   end).
    apply (proj2 (calculate_location_raises position_unchanged service_down
                    (record_at "2024-045T12:00:00.000Z") ValueError)
                 epoch 0%float 0%float 0%float);
      reflexivity.
Defined.

Lemma calculate_location_ok_witness :
  exists epoch,
    strptime (VStr "2024-045T12:00:00.000Z") = Ok epoch.
Proof.
  destruct (calculate_location_ok position_unchanged nothing_found
              (record_at "2024-045T12:00:00.000Z")
              0%float 0%float 0%float "Address not found" eq_refl)
    as [epoch [location [H _]]].
  exists epoch. exact H.
Defined.

(** ** More on the route handlers *)

Section HandlerEdges.

Lemma firstn_skipn_slice {A} (l : list A) o n :
  0 <= o -> 0 <= n ->
  slice l o (o + n) = firstn (Z.to_nat n) (skipn (Z.to_nat o) l).
Proof.
  intros Ho Hn. unfold slice.
  replace (o <? 0) with false by (symmetry; apply Z.ltb_ge; lia).
  replace (o + n <? 0) with false by (symmetry; apply Z.ltb_ge; lia).
  set (len := Z.of_nat (List.length l)).
  destruct (Z.le_gt_cases len o) as [Hbig|Hsmall].
  - rewrite (Z.min_r o len) by lia.
    rewrite !skipn_all2 by (apply Nat2Z.inj_le; rewrite ?Z2Nat.id; subst len; lia).
    now rewrite !firstn_nil.
  - rewrite (Z.min_l o len) by lia.
    destruct (Z.le_gt_cases (o + n) len) as [Hfit|Hover].
    + rewrite Z.min_l by lia. f_equal. lia.
    + rewrite Z.min_r by lia.
      assert (Hlen : List.length (skipn (Z.to_nat o) l) = Z.to_nat (len - o)).
      { rewrite length_skipn. subst len. lia. }
      rewrite !firstn_all2; auto; rewrite Hlen; lia.
Qed.

Lemma slice_part {A} (l : list A) a b :
  exists pre post, l = pre ++ slice l a b ++ post.
Proof.
  unfold slice.
  match goal with
  | |- context [firstn ?n (skipn ?i l)] =>
      exists (firstn i l), (skipn n (skipn i l))
  end.
  now rewrite firstn_skipn, firstn_skipn.
Qed.

Lemma firstn_plus {A} (l : list A) a b :
  firstn (a + b) l = firstn a l ++ firstn b (skipn a l).
Proof.
  revert l. induction a as [|a IH]; intros l; simpl; auto.
  destruct l as [|x l]; simpl.
  - now rewrite firstn_nil.
  - now rewrite IH.
Qed.

Lemma skipn_plus {A} (l : list A) a b :
  skipn (a + b) l = skipn b (skipn a l).
Proof.
  revert l. induction a as [|a IH]; intros l; simpl; auto.
  destruct l as [|x l]; simpl; auto.
  now rewrite skipn_nil.
Qed.

(** What [/epochs] carries when both parameters read as integers. *)
Lemma get_epochs_records xml data limit offset l o :
  parse_xml_data xml = Ok data ->
  query_int limit (Z.of_nat (List.length data)) = Some l ->
  query_int offset 0 = Some o ->
  records_of (get_epochs (Some xml) limit offset) = Some (slice data o (o + l)).
Proof.
  intros Hp Hl Ho. unfold get_epochs.
  rewrite Hp. cbn [bind]. rewrite Hl, Ho.
  destruct ((l =? _) && (o =? 0)) eqn:E; cbn [records_of]; auto.
  apply andb_prop in E as [E1 E2]. apply Z.eqb_eq in E1, E2. subst.
  now rewrite Z.add_0_l, slice_all.
Qed.

(** X16: once the feed is parsed, [/epochs] answers 500 exactly when
    [limit] or [offset] is present and does not read as an integer, and 200
    otherwise; a negative or oversized value is no error. *)
Theorem get_epochs_status xml data limit offset :
  parse_xml_data xml = Ok data ->
  exists resp,
    get_epochs (Some xml) limit offset = Ok resp
    /\ (status resp = 500
        <-> query_int limit (Z.of_nat (List.length data)) = None
            \/ query_int offset 0 = None)
    /\ (status resp = 200 \/ status resp = 500).
Proof.
  intros Hp. unfold get_epochs. rewrite Hp. cbn [bind].
  destruct (query_int limit _) as [l|]; [destruct (query_int offset 0) as [o|]|].
  - destruct ((l =? _) && (o =? 0)); eexists; (split; [reflexivity|]);
      (split; [|now left]); (split; [discriminate|intros [H|H]; discriminate]).
  - eexists. split; [reflexivity|]. split; [|now right].
    split; auto.
  - eexists. split; [reflexivity|]. split; [|now right].
    split; auto.
Qed.

Lemma get_epochs_status_witness :
  exists resp,
    get_epochs (Some sample_xml_data) (Some "five") None = Ok resp
    /\ status resp = 500.
Proof.
  destruct (parse_xml_data sample_xml_data) as [data|e] eqn:E;
    [|vm_compute in E; discriminate E].
  destruct (get_epochs_status sample_xml_data data (Some "five") None E)
    as [resp [H1 [H2 _]]].
  exists resp. split; [exact H1|].
  apply H2. left. reflexivity.
Defined.

(** X17: with a [limit] and an [offset] that are not negative,
    [/epochs] carries the [limit] records that follow the first [offset]
    ones, fewer when the list ends before. *)
Theorem get_epochs_page xml data sl so l o :
  parse_xml_data xml = Ok data ->
  PyText.int_of_str sl = Some l ->
  PyText.int_of_str so = Some o ->
  0 <= l -> 0 <= o ->
  records_of (get_epochs (Some xml) (Some sl) (Some so))
  = Some (firstn (Z.to_nat l) (skipn (Z.to_nat o) data)).
Proof.
  intros Hp Hl Ho Hl0 Ho0.
  rewrite (get_epochs_records xml data (Some sl) (Some so) l o Hp Hl Ho).
  now rewrite firstn_skipn_slice.
Qed.

Lemma get_epochs_page_witness :
  exists rs,
    records_of (get_epochs (Some five_sample_feed) (Some "2") (Some "4")) = Some rs
    /\ List.length rs = 1%nat.
Proof.
  destruct (parse_xml_data five_sample_feed) as [data|e] eqn:E;
    [|vm_compute in E; discriminate E].
  eexists. split.
  - apply (get_epochs_page five_sample_feed data "2" "4" 2 4 E);
      try reflexivity; lia.
  - vm_compute in E. injection E as <-. reflexivity.
Defined.

(** X18: consecutive pages tile the list: the page of [l1] records at
    [offset] followed by the page of [l2] records at [offset + l1] is the
    page of [l1 + l2] records at [offset]. *)
Theorem get_epochs_pages_join xml data s1 s2 s12 so so2 l1 l2 o :
  parse_xml_data xml = Ok data ->
  PyText.int_of_str s1 = Some l1 ->
  PyText.int_of_str s2 = Some l2 ->
  PyText.int_of_str s12 = Some (l1 + l2) ->
  PyText.int_of_str so = Some o ->
  PyText.int_of_str so2 = Some (o + l1) ->
  0 <= l1 -> 0 <= l2 -> 0 <= o ->
  exists p1 p2,
    records_of (get_epochs (Some xml) (Some s1) (Some so)) = Some p1
    /\ records_of (get_epochs (Some xml) (Some s2) (Some so2)) = Some p2
    /\ records_of (get_epochs (Some xml) (Some s12) (Some so)) = Some (p1 ++ p2).
Proof.
  intros Hp H1 H2 H12 Ho Ho2 P1 P2 Po.
  rewrite (get_epochs_records xml data (Some s1) (Some so) l1 o Hp H1 Ho).
  rewrite (get_epochs_records xml data (Some s2) (Some so2) l2 (o + l1) Hp H2 Ho2).
  rewrite (get_epochs_records xml data (Some s12) (Some so) (l1 + l2) o Hp H12 Ho).
  do 2 eexists. repeat split.
  rewrite !firstn_skipn_slice by lia.
  rewrite !Z2Nat.inj_add by lia.
  now rewrite firstn_plus, skipn_plus.
Qed.

Lemma get_epochs_pages_join_witness :
  exists p1 p2,
    records_of (get_epochs (Some five_sample_feed) (Some "2") (Some "1")) = Some p1
    /\ records_of (get_epochs (Some five_sample_feed) (Some "2") (Some "3")) = Some p2
    /\ records_of (get_epochs (Some five_sample_feed) (Some "4") (Some "1"))
       = Some (p1 ++ p2).
Proof.
  destruct (parse_xml_data five_sample_feed) as [data|e] eqn:E;
    [|vm_compute in E; discriminate E].
  apply (get_epochs_pages_join five_sample_feed data "2" "2" "4" "1" "3" 2 2 1 E);
    try reflexivity; lia.
Defined.

(** X19: whatever the two integers are, negative ones included, what
    [/epochs] carries is a run of consecutive records of the parsed list:
    nothing is added, repeated or reordered. *)
Theorem get_epochs_contiguous xml data limit offset rs :
  parse_xml_data xml = Ok data ->
  records_of (get_epochs (Some xml) limit offset) = Some rs ->
  exists pre post, data = pre ++ rs ++ post.
Proof.
  intros Hp. unfold get_epochs. rewrite Hp. cbn [bind].
  destruct (query_int limit _) as [l|]; [|discriminate].
  destruct (query_int offset 0) as [o|]; [|discriminate].
  destruct ((l =? _) && (o =? 0)); cbn [records_of]; intros [= <-].
  - exists [], []. now rewrite app_nil_r.
  - apply slice_part.
Qed.

Lemma get_epochs_contiguous_witness :
  exists data pre post rs,
    parse_xml_data five_sample_feed = Ok data
    /\ records_of (get_epochs (Some five_sample_feed) (Some "-3") (Some "-4"))
       = Some rs
    /\ data = pre ++ rs ++ post.
Proof.
  destruct (parse_xml_data five_sample_feed) as [data|e] eqn:E;
    [|vm_compute in E; discriminate E].
  destruct (records_of (get_epochs (Some five_sample_feed) (Some "-3") (Some "-4")))
    as [rs|] eqn:R; [|vm_compute in R; discriminate R].
  destruct (get_epochs_contiguous five_sample_feed data _ _ rs E R)
    as [pre [post H]].
  exists data, pre, post, rs. auto.
Defined.

(** X20: a negative [offset] without [limit] gives an empty list: with
    [offset = -k] for [1 <= k <= len] the slice runs from [len - k] to
    [len - k]. *)
Theorem get_epochs_negative_offset xml data so o :
  parse_xml_data xml = Ok data ->
  PyText.int_of_str so = Some o ->
  - Z.of_nat (List.length data) <= o < 0 ->
  records_of (get_epochs (Some xml) None (Some so)) = Some [].
Proof.
  intros Hp Ho Hr.
  rewrite (get_epochs_records xml data None (Some so) _ o Hp eq_refl Ho).
  unfold slice.
  replace (o <? 0) with true by (symmetry; apply Z.ltb_lt; lia).
  replace (o + Z.of_nat (List.length data) <? 0) with false
    by (symmetry; apply Z.ltb_ge; lia).
  rewrite Z.max_l, Z.min_l by lia.
  now rewrite Z.sub_diag.
Qed.

Lemma get_epochs_negative_offset_witness :
  records_of (get_epochs (Some five_sample_feed) None (Some "-2")) = Some [].
Proof.
  destruct (parse_xml_data five_sample_feed) as [data|e] eqn:E;
    [|vm_compute in E; discriminate E].
  apply (get_epochs_negative_offset five_sample_feed data "-2" (-2) E);
    [reflexivity|].
  vm_compute in E. injection E as <-. simpl. lia.
Defined.

(** X22: once the feed is parsed, [/epochs/<epoch>/speed] answers 404
    when no record has the epoch; for the first record that has it, it
    lets the [OverflowError] out when the square of one of the velocity
    components overflows, and otherwise answers 200 with the speed that
    [calculate_speed] returns for them. *)
Theorem get_epoch_speed_cases xml data epoch :
  parse_xml_data xml = Ok data ->
  match find (epoch_is epoch) data with
  | None => get_epoch_speed (Some xml) epoch = epoch_not_found
  | Some r =>
      let vx := StateVector.X_DOT r in
      let vy := StateVector.Y_DOT r in
      let vz := StateVector.Z_DOT r in
      if square_overflows vx || square_overflows vy || square_overflows vz
      then get_epoch_speed (Some xml) epoch = Raise OverflowError
      else exists speed,
          calculate_speed vx vy vz = Ok speed
          /\ get_epoch_speed (Some xml) epoch = Ok (Dumps (Speed speed) "", 200)
  end.
Proof.
  intros Hp. unfold get_epoch_speed. rewrite Hp. cbn [bind].
  destruct (find (epoch_is epoch) data) as [r|]; [|reflexivity].
  change (inline_speed r)
    with (calculate_speed (StateVector.X_DOT r) (StateVector.Y_DOT r)
                          (StateVector.Z_DOT r)).
  cbv zeta. rewrite calculate_speed_cases.
  destruct (_ || _); [reflexivity|].
  eexists. split; reflexivity.
Qed.

Lemma get_epoch_speed_cases_witness :
  get_epoch_speed (Some fast_feed) "2024-045T12:05:00.000Z" = Raise OverflowError.
Proof.
  destruct (parse_xml_data fast_feed) as [data|e] eqn:E;
    [|vm_compute in E; discriminate E].
  pose proof (get_epoch_speed_cases fast_feed data "2024-045T12:05:00.000Z" E)
    as H.
  vm_compute in E. injection E as <-. exact H.
Defined.

End HandlerEdges.

Section HandlerAgreement.

Variable to_geodetic : Z -> float -> float -> float -> float * float * float.
Variable reverse : float -> float -> result (option Location).

(** X21: the three handlers of one epoch agree on what is missing: on a
    parsed feed, [/epochs/<epoch>/speed] and [/epochs/<epoch>/location]
    answer 404 exactly when [/epochs/<epoch>] does. *)
Theorem epoch_handlers_agree xml data epoch :
  parse_xml_data xml = Ok data ->
  (get_epoch (Some xml) epoch = epoch_not_found
   <-> get_epoch_speed (Some xml) epoch = epoch_not_found)
  /\ (get_epoch (Some xml) epoch = epoch_not_found
      <-> get_epoch_location to_geodetic reverse (Some xml) epoch = epoch_not_found).
Proof.
  intros Hp. unfold get_epoch, get_epoch_speed, get_epoch_location, epoch_not_found.
  rewrite Hp. cbn [bind].
  destruct (find (epoch_is epoch) data) as [r|].
  - split; split; try discriminate.
    + destruct (inline_speed r); cbn [bind]; discriminate.
    + destruct (calculate_location to_geodetic reverse r) as [[[[lat lon] alt] geo]|];
        cbn [bind]; discriminate.
  - split; split; reflexivity.
Qed.

(** X23: [/now] raises [TypeError] when the clock is more than 4 minutes
    1 millisecond before the first record of the parsed feed, whatever the
    other records are. *)
Theorem get_nearest_epoch_before_feed now xml t et rest :
  parse_xml_data xml = Ok (t :: rest) ->
  strptime (StateVector.EPOCH t) = Ok et ->
  now - et < - PyTime.tolerance ->
  get_nearest_epoch to_geodetic reverse now (Some xml) = Raise TypeError.
Proof.
  intros Hp Ht Hfar. unfold get_nearest_epoch, get_current_info.
  rewrite Hp. cbn [bind].
  rewrite (closest_scan_cut now t et rest [] _ _ Ht Hfar). reflexivity.
Qed.

(** X24: when [/now] answers, it answers 200 with the [EPOCH] of a
    parsed record that is not more than 4 minutes 1 millisecond ahead of
    the clock, the speed [calculate_speed] gives for that record and the
    coordinates and address [calculate_location] gives for it. *)
Theorem get_nearest_epoch_ok now xml resp :
  get_nearest_epoch to_geodetic reverse now (Some xml) = Ok resp ->
  exists data r speed lat lon alt geo,
    parse_xml_data xml = Ok data
    /\ In r data
    /\ (exists t, strptime (StateVector.EPOCH r) = Ok t
                  /\ - PyTime.tolerance <= now - t)
    /\ calculate_speed (StateVector.X_DOT r) (StateVector.Y_DOT r)
                       (StateVector.Z_DOT r) = Ok speed
    /\ calculate_location to_geodetic reverse r = Ok (lat, lon, alt, geo)
    /\ resp = (Dumps (Nearest (StateVector.EPOCH r) lat lon alt geo speed) "", 200).
Proof.
  unfold get_nearest_epoch, get_current_info.
  destruct (parse_xml_data xml) as [data|]; [|discriminate]. cbn [bind].
  destruct (closest_scan now data None PyTime.timedelta_max) as [[r|]|] eqn:E;
    cbn [bind]; try discriminate.
  destruct (calculate_speed (StateVector.X_DOT r) (StateVector.Y_DOT r)
                            (StateVector.Z_DOT r)) as [speed|] eqn:Hs;
    cbn [bind]; [|discriminate].
  destruct (calculate_location to_geodetic reverse r)
    as [[[[lat lon] alt] geo]|] eqn:Hl; cbn [bind]; [|discriminate].
  intros [= <-].
  exists data, r, speed, lat, lon, alt, geo. repeat split; auto.
  - apply closest_scan_in in E. destruct E as [E|E]; [discriminate|exact E].
  - apply closest_scan_within in E. destruct E as [E|E]; [discriminate|exact E].
Qed.

End HandlerAgreement.

Lemma get_nearest_epoch_ok_witness :
  exists data r,
    parse_xml_data five_sample_feed = Ok data /\ In r data.
Proof.
  destruct (get_nearest_epoch position_unchanged nothing_found ten_past_noon
              (Some five_sample_feed)) as [resp|e] eqn:E;
    [|vm_compute in E; discriminate E].
  destruct (get_nearest_epoch_ok position_unchanged nothing_found
              ten_past_noon five_sample_feed resp E)
    as [data [r [speed [lat [lon [alt [geo [H1 [H2 _]]]]]]]]].
  exists data, r. auto.
Defined.

Lemma epoch_handlers_agree_witness :
  get_epoch_location position_unchanged nothing_found (Some sample_xml_data)
    "2024-045T12:06:00.000Z"
  = epoch_not_found.
Proof.
  destruct (parse_xml_data sample_xml_data) as [data|e] eqn:E;
    [|vm_compute in E; discriminate E].
  apply (proj2 (epoch_handlers_agree position_unchanged nothing_found
                  sample_xml_data data "2024-045T12:06:00.000Z" E)).
  vm_compute. reflexivity.
Defined.

Lemma get_nearest_epoch_before_feed_witness :
  get_nearest_epoch position_unchanged nothing_found
    (ten_past_noon - 3600000000) (Some five_sample_feed)
  = Raise TypeError.
Proof.
  destruct (parse_xml_data five_sample_feed) as [[|t rest]|e] eqn:E;
    try (vm_compute in E; discriminate E).
  pose (et := match PyTime.strptime_str "2024-045T12:00:00.000Z" with
              | Some t => t
              | None => 0
              end).
  apply (get_nearest_epoch_before_feed position_unchanged nothing_found
           _ five_sample_feed t et rest E).
  - vm_compute in E. injection E as <- _. reflexivity.
  - vm_compute. reflexivity.
Defined.
